(** * A shallow embedding of the AI personal assistant and its tool servers

    Sources embedded here:
    - [src/ai_chat_assistant.py]: [AIPersonalAssistant.process_with_claude]
      (the two-pass tool-use dialogue loop) and [AIPersonalAssistant.run]
      (the terminal session loop);
    - [src/mcp_servers/pizza_ordering.py]: [order_pizza] and its tables;
    - [src/mcp_servers/meeting_scheduler.py]: [schedule_meeting] and
      [check_availability];
    - [src/mcp_servers/pdf_reader.py]: the page-range clamping of
      [read_pdf_text] and [ask_question_about_pdf].

    Python strings are modelled as [String.string] holding their UTF-8
    encoding (the string methods decode the code points where Python's
    act on characters), Python exceptions as the inductive [Py.exn], and
    effectful code as a small state-and-exception monad. *)

From Stdlib Require Import String Ascii List ZArith Bool Lia Floats Sorted.
Import ListNotations.
Open Scope string_scope.
Set Warnings "-inexact-float -register-all".

(* ------------------------------------------------------------------ *)
(** ** Python runtime: exceptions and the string methods the code uses *)

Module Py.

(** The exceptions the embedded code can raise.  [KeyboardInterrupt] is the
    only one that is not a subclass of [Exception]. *)
Inductive exn : Type :=
| KeyError (key : string)
| AttributeError (type_name attr : string)
| IndexError (msg : string)
| OverflowError (msg : string)
| APIError (msg : string)      (* anything the Anthropic client raises *)
| EOFError
| KeyboardInterrupt.

(** [isinstance(e, Exception)]. *)
Definition is_Exception (e : exn) : bool :=
  match e with
  | KeyboardInterrupt => false
  | _ => true
  end.

(** [str(e)]. *)
Definition str_exn (e : exn) : string :=
  match e with
  | KeyError k => "'" ++ k ++ "'"
  | AttributeError ty a => "'" ++ ty ++ "' object has no attribute '" ++ a ++ "'"
  | IndexError m => m
  | OverflowError m => m
  | APIError m => m
  | EOFError => "EOF when reading a line"
  | KeyboardInterrupt => ""
  end.

(** The result of a Python computation: a value or a raised exception. *)
Inductive result (A : Type) : Type :=
| Ok (a : A)
| Raise (e : exn).
Arguments Ok {A} a.
Arguments Raise {A} e.

(** *** Python strings

    A Python [str] is kept as its UTF-8 encoding ([String.string] is a byte
    string).  Equality, concatenation, [in], [startswith] and [split('.')]
    act on the bytes exactly as on the characters (UTF-8 is
    self-synchronising); [len], [s[:n]], [lower], [strip] and [split()]
    work on the code points.  The character tables are those of Python
    3.11 (Unicode 14.0). *)

Local Open Scope Z_scope.

Definition byte (c : ascii) : Z := Z.of_nat (nat_of_ascii c).

Definition cont_byte (c : ascii) : bool :=
  Z.leb 128 (byte c) && Z.ltb (byte c) 192.

Definition cont_val (c : ascii) : Z := byte c - 128.

(** The code points of a UTF-8 string (a byte that starts no well-formed
    sequence is read as the code point of its value). *)
Fixpoint utf8_decode (s : string) : list Z :=
  match s with
  | EmptyString => []
  | String a s1 =>
      let b := byte a in
      if Z.ltb b 192 then b :: utf8_decode s1
      else if Z.ltb b 224 then
        match s1 with
        | String c1 s2 =>
            if cont_byte c1 then ((b - 192) * 64 + cont_val c1) :: utf8_decode s2
            else b :: utf8_decode s1
        | EmptyString => [b]
        end
      else if Z.ltb b 240 then
        match s1 with
        | String c1 (String c2 s3) =>
            if cont_byte c1 && cont_byte c2
            then ((b - 224) * 4096 + cont_val c1 * 64 + cont_val c2) :: utf8_decode s3
            else b :: utf8_decode s1
        | _ => b :: utf8_decode s1
        end
      else if Z.ltb b 248 then
        match s1 with
        | String c1 (String c2 (String c3 s4)) =>
            if cont_byte c1 && cont_byte c2 && cont_byte c3
            then ((b - 240) * 262144 + cont_val c1 * 4096 + cont_val c2 * 64
                  + cont_val c3) :: utf8_decode s4
            else b :: utf8_decode s1
        | _ => b :: utf8_decode s1
        end
      else b :: utf8_decode s1
  end.

Definition byte_of (n : Z) : ascii := ascii_of_nat (Z.to_nat n).

(** The UTF-8 encoding of one code point. *)
Definition utf8_char (c : Z) : string :=
  if Z.ltb c 128 then String (byte_of c) EmptyString
  else if Z.ltb c 2048 then
    String (byte_of (192 + c / 64)) (String (byte_of (128 + c mod 64)) EmptyString)
  else if Z.ltb c 65536 then
    String (byte_of (224 + c / 4096))
      (String (byte_of (128 + (c / 64) mod 64))
         (String (byte_of (128 + c mod 64)) EmptyString))
  else
    String (byte_of (240 + c / 262144))
      (String (byte_of (128 + (c / 4096) mod 64))
         (String (byte_of (128 + (c / 64) mod 64))
            (String (byte_of (128 + c mod 64)) EmptyString))).

Fixpoint utf8_encode (l : list Z) : string :=
  match l with
  | [] => EmptyString
  | c :: l' => utf8_char c ++ utf8_encode l'
  end.

(** [len(s)]: the number of code points. *)
Definition py_len (s : string) : nat := length (utf8_decode s).

(** [s[:n]]. *)
Definition py_prefix (n : nat) (s : string) : string :=
  utf8_encode (firstn n (utf8_decode s)).

(** Unicode's lowercase mapping as rules [(lo, hi, step, delta)]: a code
    point [c] with [lo <= c <= hi] and [step] dividing [c - lo] lowers to
    [c + delta].  U+0130 (two code points) and U+03A3 (context dependent)
    are handled apart. *)
Definition LOWER_RULES : list (Z * Z * Z * Z) :=
  [(65, 90, 1, 32); (192, 214, 1, 32); (216, 222, 1, 32); (256, 302, 2, 1); (306, 310, 2, 1);
   (313, 327, 2, 1); (330, 374, 2, 1); (376, 376, 1, -121); (377, 381, 2, 1); (385, 385, 1, 210);
   (386, 388, 2, 1); (390, 390, 1, 206); (391, 391, 1, 1); (393, 394, 1, 205); (395, 395, 1, 1);
   (398, 398, 1, 79); (399, 399, 1, 202); (400, 400, 1, 203); (401, 401, 1, 1); (403, 403, 1, 205);
   (404, 404, 1, 207); (406, 406, 1, 211); (407, 407, 1, 209); (408, 408, 1, 1); (412, 412, 1, 211);
   (413, 413, 1, 213); (415, 415, 1, 214); (416, 420, 2, 1); (422, 422, 1, 218); (423, 423, 1, 1);
   (425, 425, 1, 218); (428, 428, 1, 1); (430, 430, 1, 218); (431, 431, 1, 1); (433, 434, 1, 217);
   (435, 437, 2, 1); (439, 439, 1, 219); (440, 440, 1, 1); (444, 444, 1, 1); (452, 452, 1, 2);
   (453, 453, 1, 1); (455, 455, 1, 2); (456, 456, 1, 1); (458, 458, 1, 2); (459, 475, 2, 1);
   (478, 494, 2, 1); (497, 497, 1, 2); (498, 500, 2, 1); (502, 502, 1, -97); (503, 503, 1, -56);
   (504, 542, 2, 1); (544, 544, 1, -130); (546, 562, 2, 1); (570, 570, 1, 10795); (571, 571, 1, 1);
   (573, 573, 1, -163); (574, 574, 1, 10792); (577, 577, 1, 1); (579, 579, 1, -195); (580, 580, 1, 69);
   (581, 581, 1, 71); (582, 590, 2, 1); (880, 882, 2, 1); (886, 886, 1, 1); (895, 895, 1, 116);
   (902, 902, 1, 38); (904, 906, 1, 37); (908, 908, 1, 64); (910, 911, 1, 63); (913, 929, 1, 32);
   (932, 939, 1, 32); (975, 975, 1, 8); (984, 1006, 2, 1); (1012, 1012, 1, -60); (1015, 1015, 1, 1);
   (1017, 1017, 1, -7); (1018, 1018, 1, 1); (1021, 1023, 1, -130); (1024, 1039, 1, 80); (1040, 1071, 1, 32);
   (1120, 1152, 2, 1); (1162, 1214, 2, 1); (1216, 1216, 1, 15); (1217, 1229, 2, 1); (1232, 1326, 2, 1);
   (1329, 1366, 1, 48); (4256, 4293, 1, 7264); (4295, 4295, 1, 7264); (4301, 4301, 1, 7264); (5024, 5103, 1, 38864);
   (5104, 5109, 1, 8); (7312, 7354, 1, -3008); (7357, 7359, 1, -3008); (7680, 7828, 2, 1); (7838, 7838, 1, -7615);
   (7840, 7934, 2, 1); (7944, 7951, 1, -8); (7960, 7965, 1, -8); (7976, 7983, 1, -8); (7992, 7999, 1, -8);
   (8008, 8013, 1, -8); (8025, 8031, 2, -8); (8040, 8047, 1, -8); (8072, 8079, 1, -8); (8088, 8095, 1, -8);
   (8104, 8111, 1, -8); (8120, 8121, 1, -8); (8122, 8123, 1, -74); (8124, 8124, 1, -9); (8136, 8139, 1, -86);
   (8140, 8140, 1, -9); (8152, 8153, 1, -8); (8154, 8155, 1, -100); (8168, 8169, 1, -8); (8170, 8171, 1, -112);
   (8172, 8172, 1, -7); (8184, 8185, 1, -128); (8186, 8187, 1, -126); (8188, 8188, 1, -9); (8486, 8486, 1, -7517);
   (8490, 8490, 1, -8383); (8491, 8491, 1, -8262); (8498, 8498, 1, 28); (8544, 8559, 1, 16); (8579, 8579, 1, 1);
   (9398, 9423, 1, 26); (11264, 11311, 1, 48); (11360, 11360, 1, 1); (11362, 11362, 1, -10743); (11363, 11363, 1, -3814);
   (11364, 11364, 1, -10727); (11367, 11371, 2, 1); (11373, 11373, 1, -10780); (11374, 11374, 1, -10749); (11375, 11375, 1, -10783);
   (11376, 11376, 1, -10782); (11378, 11378, 1, 1); (11381, 11381, 1, 1); (11390, 11391, 1, -10815); (11392, 11490, 2, 1);
   (11499, 11501, 2, 1); (11506, 11506, 1, 1); (42560, 42604, 2, 1); (42624, 42650, 2, 1); (42786, 42798, 2, 1);
   (42802, 42862, 2, 1); (42873, 42875, 2, 1); (42877, 42877, 1, -35332); (42878, 42886, 2, 1); (42891, 42891, 1, 1);
   (42893, 42893, 1, -42280); (42896, 42898, 2, 1); (42902, 42920, 2, 1); (42922, 42922, 1, -42308); (42923, 42923, 1, -42319);
   (42924, 42924, 1, -42315); (42925, 42925, 1, -42305); (42926, 42926, 1, -42308); (42928, 42928, 1, -42258); (42929, 42929, 1, -42282);
   (42930, 42930, 1, -42261); (42931, 42931, 1, 928); (42932, 42946, 2, 1); (42948, 42948, 1, -48); (42949, 42949, 1, -42307);
   (42950, 42950, 1, -35384); (42951, 42953, 2, 1); (42960, 42960, 1, 1); (42966, 42968, 2, 1); (42997, 42997, 1, 1);
   (65313, 65338, 1, 32); (66560, 66599, 1, 40); (66736, 66771, 1, 40); (66928, 66938, 1, 39); (66940, 66954, 1, 39);
   (66956, 66962, 1, 39); (66964, 66965, 1, 39); (68736, 68786, 1, 64); (71840, 71871, 1, 32); (93760, 93791, 1, 32);
   (125184, 125217, 1, 34) ].

Definition CASED : list (Z * Z) :=
  [(65, 90); (97, 122); (170, 170); (181, 181); (186, 186); (192, 214); (216, 246);
   (248, 442); (444, 447); (452, 659); (661, 687); (880, 883); (886, 887); (891, 893);
   (895, 895); (902, 902); (904, 906); (908, 908); (910, 929); (931, 1013); (1015, 1153);
   (1162, 1327); (1329, 1366); (1376, 1416); (4256, 4293); (4295, 4295); (4301, 4301); (4304, 4346);
   (4349, 4351); (5024, 5109); (5112, 5117); (7296, 7304); (7312, 7354); (7357, 7359); (7424, 7467);
   (7531, 7543); (7545, 7578); (7680, 7957); (7960, 7965); (7968, 8005); (8008, 8013); (8016, 8023);
   (8025, 8025); (8027, 8027); (8029, 8029); (8031, 8061); (8064, 8116); (8118, 8124); (8126, 8126);
   (8130, 8132); (8134, 8140); (8144, 8147); (8150, 8155); (8160, 8172); (8178, 8180); (8182, 8188);
   (8450, 8450); (8455, 8455); (8458, 8467); (8469, 8469); (8473, 8477); (8484, 8484); (8486, 8486);
   (8488, 8488); (8490, 8493); (8495, 8500); (8505, 8505); (8508, 8511); (8517, 8521); (8526, 8526);
   (8544, 8575); (8579, 8580); (9398, 9449); (11264, 11387); (11390, 11492); (11499, 11502); (11506, 11507);
   (11520, 11557); (11559, 11559); (11565, 11565); (42560, 42605); (42624, 42651); (42786, 42863); (42865, 42887);
   (42891, 42894); (42896, 42954); (42960, 42961); (42963, 42963); (42965, 42969); (42997, 42998); (43002, 43002);
   (43824, 43866); (43872, 43880); (43888, 43967); (64256, 64262); (64275, 64279); (65313, 65338); (65345, 65370);
   (66560, 66639); (66736, 66771); (66776, 66811); (66928, 66938); (66940, 66954); (66956, 66962); (66964, 66965);
   (66967, 66977); (66979, 66993); (66995, 67001); (67003, 67004); (68736, 68786); (68800, 68850); (71840, 71903);
   (93760, 93823); (119808, 119892); (119894, 119964); (119966, 119967); (119970, 119970); (119973, 119974); (119977, 119980);
   (119982, 119993); (119995, 119995); (119997, 120003); (120005, 120069); (120071, 120074); (120077, 120084); (120086, 120092);
   (120094, 120121); (120123, 120126); (120128, 120132); (120134, 120134); (120138, 120144); (120146, 120485); (120488, 120512);
   (120514, 120538); (120540, 120570); (120572, 120596); (120598, 120628); (120630, 120654); (120656, 120686); (120688, 120712);
   (120714, 120744); (120746, 120770); (120772, 120779); (122624, 122633); (122635, 122654); (125184, 125251); (127280, 127305);
   (127312, 127337); (127344, 127369) ].

Definition CASE_IGNORABLE : list (Z * Z) :=
  [(39, 39); (46, 46); (58, 58); (94, 94); (96, 96); (168, 168); (173, 173);
   (175, 175); (180, 180); (183, 184); (688, 879); (884, 885); (890, 890); (900, 901);
   (903, 903); (1155, 1161); (1369, 1369); (1375, 1375); (1425, 1469); (1471, 1471); (1473, 1474);
   (1476, 1477); (1479, 1479); (1524, 1524); (1536, 1541); (1552, 1562); (1564, 1564); (1600, 1600);
   (1611, 1631); (1648, 1648); (1750, 1757); (1759, 1768); (1770, 1773); (1807, 1807); (1809, 1809);
   (1840, 1866); (1958, 1968); (2027, 2037); (2042, 2042); (2045, 2045); (2070, 2093); (2137, 2139);
   (2184, 2184); (2192, 2193); (2200, 2207); (2249, 2306); (2362, 2362); (2364, 2364); (2369, 2376);
   (2381, 2381); (2385, 2391); (2402, 2403); (2417, 2417); (2433, 2433); (2492, 2492); (2497, 2500);
   (2509, 2509); (2530, 2531); (2558, 2558); (2561, 2562); (2620, 2620); (2625, 2626); (2631, 2632);
   (2635, 2637); (2641, 2641); (2672, 2673); (2677, 2677); (2689, 2690); (2748, 2748); (2753, 2757);
   (2759, 2760); (2765, 2765); (2786, 2787); (2810, 2815); (2817, 2817); (2876, 2876); (2879, 2879);
   (2881, 2884); (2893, 2893); (2901, 2902); (2914, 2915); (2946, 2946); (3008, 3008); (3021, 3021);
   (3072, 3072); (3076, 3076); (3132, 3132); (3134, 3136); (3142, 3144); (3146, 3149); (3157, 3158);
   (3170, 3171); (3201, 3201); (3260, 3260); (3263, 3263); (3270, 3270); (3276, 3277); (3298, 3299);
   (3328, 3329); (3387, 3388); (3393, 3396); (3405, 3405); (3426, 3427); (3457, 3457); (3530, 3530);
   (3538, 3540); (3542, 3542); (3633, 3633); (3636, 3642); (3654, 3662); (3761, 3761); (3764, 3772);
   (3782, 3782); (3784, 3789); (3864, 3865); (3893, 3893); (3895, 3895); (3897, 3897); (3953, 3966);
   (3968, 3972); (3974, 3975); (3981, 3991); (3993, 4028); (4038, 4038); (4141, 4144); (4146, 4151);
   (4153, 4154); (4157, 4158); (4184, 4185); (4190, 4192); (4209, 4212); (4226, 4226); (4229, 4230);
   (4237, 4237); (4253, 4253); (4348, 4348); (4957, 4959); (5906, 5908); (5938, 5939); (5970, 5971);
   (6002, 6003); (6068, 6069); (6071, 6077); (6086, 6086); (6089, 6099); (6103, 6103); (6109, 6109);
   (6155, 6159); (6211, 6211); (6277, 6278); (6313, 6313); (6432, 6434); (6439, 6440); (6450, 6450);
   (6457, 6459); (6679, 6680); (6683, 6683); (6742, 6742); (6744, 6750); (6752, 6752); (6754, 6754);
   (6757, 6764); (6771, 6780); (6783, 6783); (6823, 6823); (6832, 6862); (6912, 6915); (6964, 6964);
   (6966, 6970); (6972, 6972); (6978, 6978); (7019, 7027); (7040, 7041); (7074, 7077); (7080, 7081);
   (7083, 7085); (7142, 7142); (7144, 7145); (7149, 7149); (7151, 7153); (7212, 7219); (7222, 7223);
   (7288, 7293); (7376, 7378); (7380, 7392); (7394, 7400); (7405, 7405); (7412, 7412); (7416, 7417);
   (7468, 7530); (7544, 7544); (7579, 7679); (8125, 8125); (8127, 8129); (8141, 8143); (8157, 8159);
   (8173, 8175); (8189, 8190); (8203, 8207); (8216, 8217); (8228, 8228); (8231, 8231); (8234, 8238);
   (8288, 8292); (8294, 8303); (8305, 8305); (8319, 8319); (8336, 8348); (8400, 8432); (11388, 11389);
   (11503, 11505); (11631, 11631); (11647, 11647); (11744, 11775); (11823, 11823); (12293, 12293); (12330, 12333);
   (12337, 12341); (12347, 12347); (12441, 12446); (12540, 12542); (40981, 40981); (42232, 42237); (42508, 42508);
   (42607, 42610); (42612, 42621); (42623, 42623); (42652, 42655); (42736, 42737); (42752, 42785); (42864, 42864);
   (42888, 42890); (42994, 42996); (43000, 43001); (43010, 43010); (43014, 43014); (43019, 43019); (43045, 43046);
   (43052, 43052); (43204, 43205); (43232, 43249); (43263, 43263); (43302, 43309); (43335, 43345); (43392, 43394);
   (43443, 43443); (43446, 43449); (43452, 43453); (43471, 43471); (43493, 43494); (43561, 43566); (43569, 43570);
   (43573, 43574); (43587, 43587); (43596, 43596); (43632, 43632); (43644, 43644); (43696, 43696); (43698, 43700);
   (43703, 43704); (43710, 43711); (43713, 43713); (43741, 43741); (43756, 43757); (43763, 43764); (43766, 43766);
   (43867, 43871); (43881, 43883); (44005, 44005); (44008, 44008); (44013, 44013); (64286, 64286); (64434, 64450);
   (65024, 65039); (65043, 65043); (65056, 65071); (65106, 65106); (65109, 65109); (65279, 65279); (65287, 65287);
   (65294, 65294); (65306, 65306); (65342, 65342); (65344, 65344); (65392, 65392); (65438, 65439); (65507, 65507);
   (65529, 65531); (66045, 66045); (66272, 66272); (66422, 66426); (67456, 67461); (67463, 67504); (67506, 67514);
   (68097, 68099); (68101, 68102); (68108, 68111); (68152, 68154); (68159, 68159); (68325, 68326); (68900, 68903);
   (69291, 69292); (69446, 69456); (69506, 69509); (69633, 69633); (69688, 69702); (69744, 69744); (69747, 69748);
   (69759, 69761); (69811, 69814); (69817, 69818); (69821, 69821); (69826, 69826); (69837, 69837); (69888, 69890);
   (69927, 69931); (69933, 69940); (70003, 70003); (70016, 70017); (70070, 70078); (70089, 70092); (70095, 70095);
   (70191, 70193); (70196, 70196); (70198, 70199); (70206, 70206); (70367, 70367); (70371, 70378); (70400, 70401);
   (70459, 70460); (70464, 70464); (70502, 70508); (70512, 70516); (70712, 70719); (70722, 70724); (70726, 70726);
   (70750, 70750); (70835, 70840); (70842, 70842); (70847, 70848); (70850, 70851); (71090, 71093); (71100, 71101);
   (71103, 71104); (71132, 71133); (71219, 71226); (71229, 71229); (71231, 71232); (71339, 71339); (71341, 71341);
   (71344, 71349); (71351, 71351); (71453, 71455); (71458, 71461); (71463, 71467); (71727, 71735); (71737, 71738);
   (71995, 71996); (71998, 71998); (72003, 72003); (72148, 72151); (72154, 72155); (72160, 72160); (72193, 72202);
   (72243, 72248); (72251, 72254); (72263, 72263); (72273, 72278); (72281, 72283); (72330, 72342); (72344, 72345);
   (72752, 72758); (72760, 72765); (72767, 72767); (72850, 72871); (72874, 72880); (72882, 72883); (72885, 72886);
   (73009, 73014); (73018, 73018); (73020, 73021); (73023, 73029); (73031, 73031); (73104, 73105); (73109, 73109);
   (73111, 73111); (73459, 73460); (78896, 78904); (92912, 92916); (92976, 92982); (92992, 92995); (94031, 94031);
   (94095, 94111); (94176, 94177); (94179, 94180); (110576, 110579); (110581, 110587); (110589, 110590); (113821, 113822);
   (113824, 113827); (118528, 118573); (118576, 118598); (119143, 119145); (119155, 119170); (119173, 119179); (119210, 119213);
   (119362, 119364); (121344, 121398); (121403, 121452); (121461, 121461); (121476, 121476); (121499, 121503); (121505, 121519);
   (122880, 122886); (122888, 122904); (122907, 122913); (122915, 122916); (122918, 122922); (123184, 123197); (123566, 123566);
   (123628, 123631); (125136, 125142); (125252, 125259); (127995, 127999); (917505, 917505); (917536, 917631); (917760, 917999) ].

Definition SPACES : list Z :=
  [9; 10; 11; 12; 13; 28; 29; 30; 31; 32; 133; 160; 5760; 8192; 8193;
   8194; 8195; 8196; 8197; 8198; 8199; 8200; 8201; 8202; 8232; 8233; 8239; 8287; 12288 ].

Definition in_ranges (c : Z) (l : list (Z * Z)) : bool :=
  existsb (fun '(lo, hi) => Z.leb lo c && Z.leb c hi) l.

(** The lowercase of one code point, outside U+03A3. *)
Definition lower_cp (c : Z) : list Z :=
  if Z.eqb c 304 then [105; 775]
  else match find (fun '(lo, hi, st, _) =>
                     Z.leb lo c && Z.leb c hi && Z.eqb ((c - lo) mod st) 0)
               LOWER_RULES with
       | Some (_, _, _, d) => [c + d]
       | None => [c]
       end.

Fixpoint drop_while {A} (p : A -> bool) (l : list A) : list A :=
  match l with
  | [] => []
  | x :: l' => if p x then drop_while p l' else l
  end.

(** The first code point of [l] that is not case-ignorable is cased. *)
Definition cased_next (l : list Z) : bool :=
  match drop_while (fun c => in_ranges c CASE_IGNORABLE) l with
  | c :: _ => in_ranges c CASED
  | [] => false
  end.

(** [str.lower] on code points; [before] holds the code points already
    read, nearest first.  U+03A3 lowers to the final sigma U+03C2 when a
    cased letter comes before it and none after it (case-ignorable code
    points skipped), and to U+03C3 otherwise. *)
Fixpoint lower_cps (before : list Z) (l : list Z) : list Z :=
  match l with
  | [] => []
  | c :: l' =>
      (if Z.eqb c 931
       then (if cased_next before && negb (cased_next l') then [962] else [963])
       else lower_cp c)
      ++ lower_cps (c :: before) l'
  end%list.

(** [str.lower]. *)
Definition lower (s : string) : string :=
  utf8_encode (lower_cps [] (utf8_decode s)).

(** [str.isspace] on one code point. *)
Definition is_space (c : Z) : bool := existsb (Z.eqb c) SPACES.

(** [str.strip()]: drop leading whitespace, then trailing whitespace. *)
Definition strip (s : string) : string :=
  utf8_encode (rev (drop_while is_space (rev (drop_while is_space (utf8_decode s))))).

(** Cut a list of code points at every whitespace; empty pieces kept. *)
Fixpoint split_cps (l : list Z) : list (list Z) :=
  match l with
  | [] => [[]]
  | c :: l' =>
      if is_space c then [] :: split_cps l'
      else match split_cps l' with
           | h :: t => (c :: h) :: t
           | [] => [[c]]
           end
  end.

(** [s.split()]: runs of whitespace separate, empty pieces dropped. *)
Definition split_ws (s : string) : list string :=
  map utf8_encode
    (filter (fun w => match w with [] => false | _ => true end)
            (split_cps (utf8_decode s))).

(** Cut a string at every character satisfying [sep]; empty pieces kept. *)
Fixpoint split_by (sep : ascii -> bool) (s : string) : list string :=
  match s with
  | EmptyString => [EmptyString]
  | String c s' =>
      if sep c then EmptyString :: split_by sep s'
      else match split_by sep s' with
           | h :: t => String c h :: t
           | [] => [String c EmptyString]
           end
  end.

(** [s.split(c)] for a one-character separator. *)
Definition split_on (c : ascii) (s : string) : list string :=
  split_by (fun x => Ascii.eqb x c) s.


Fixpoint starts_with (p s : string) : bool :=
  match p, s with
  | EmptyString, _ => true
  | String a p', String b s' => Ascii.eqb a b && starts_with p' s'
  | String _ _, EmptyString => false
  end.

(** [p in s] for strings. *)
Fixpoint contains (s p : string) : bool :=
  starts_with p s ||
  match s with
  | EmptyString => false
  | String _ s' => contains s' p
  end.

(** [sep.join(l)]. *)
Fixpoint join (sep : string) (l : list string) : string :=
  match l with
  | [] => EmptyString
  | [x] => x
  | x :: l' => x ++ sep ++ join sep l'
  end.

(** [l[-n:]]. *)
Definition last_n {A} (n : nat) (l : list A) : list A :=
  skipn (length l - n)%nat l.

End Py.

Import Py.

(* ------------------------------------------------------------------ *)
(** ** The dialogue loop of [src/ai_chat_assistant.py] *)

Module Dialogue.

(** A JSON value as found in a tool call's [input] object. *)
Inductive value : Type :=
| VStr (s : string)
| VInt (z : Z)
| VBool (b : bool)
| VNull
| VList (l : list value)
| VObj (fields : list (string * value)).

(** A content block of a model response: [type == "text"] or
    [type == "tool_use"] (with [.id], [.name], [.input]). *)
Inductive block : Type :=
| TextBlock (text : string)
| ToolUseBlock (id name : string) (input : list (string * value)).

Record response : Type := mk_response {
  stop_reason : string;
  content : list block }.

(** [{"type": "tool_result", "tool_use_id": ..., "content": ...}] *)
Record tool_result : Type := mk_tool_result {
  tool_use_id : string;
  tr_content : string }.

(** The [content] of a message: a plain string, the blocks of an earlier
    response, or a list of tool results. *)
Inductive message_content : Type :=
| CText (s : string)
| CBlocks (bs : list block)
| CResults (rs : list tool_result).

Record message : Type := mk_message {
  role : string;
  body : message_content }.

(** One entry of [self.conversation_history]. *)
Record entry : Type := mk_entry {
  timestamp : string;
  user : string;
  assistant : string }.

(** The tools passed to the model: name and the [required] list of its
    [input_schema] (descriptions and property types are left out). *)
Record tool_spec : Type := mk_tool_spec {
  ts_name : string;
  ts_required : list string }.

Definition tools : list tool_spec :=
  [ mk_tool_spec "send_simple_email" ["to"; "subject"; "message"];
    mk_tool_spec "search_web" ["query"];
    mk_tool_spec "read_pdf_text" ["file_path"];
    mk_tool_spec "read_pdf_with_ocr" ["file_path"];
    mk_tool_spec "ask_question_about_pdf" ["question"];
    mk_tool_spec "get_pdf_info" ["file_path"] ].

Definition model_id : string := "claude-sonnet-4-20250514".

Definition system_prompt : string :=
  "You are a helpful personal AI assistant. Be friendly and conversational.
You have access to tools for:
- Sending emails (send_simple_email)
- Searching the web (search_web)
- Reading PDF files (read_pdf_text, read_pdf_with_ocr)
- Answering questions about PDFs (ask_question_about_pdf)
- Getting PDF information (get_pdf_info)

When the user asks you to perform these tasks, use the appropriate tool.
For simple greetings and conversation, just respond naturally without using tools.".

(** The arguments of [self.claude_client.messages.create(...)]. *)
Record request : Type := mk_request {
  req_model : string;
  req_max_tokens : Z;
  req_system : string;
  req_messages : list message;
  req_tools : list tool_spec }.

Section Loop.

(** The external world the tools act on (mailbox, web, files, the PDF
    document store); the tools are opaque functions over it. *)
Variable W : Type.

(** The model API: its answer to a request, given the requests made
    before it; it may raise (network failure, authentication, ...). *)
Variable api : list request -> request -> result response.

(** The tool executors.  Each one wraps its body in
    [try ... except Exception as e: return f"Error ...: {e}"], so it
    returns a string and never raises. *)
Variable send_simple_email_tool : value -> value -> value -> W -> string * W.
Variable search_web_tool : value -> W -> string * W.
Variable read_pdf_text : value -> option value -> option value -> W -> string * W.
Variable read_pdf_with_ocr :
  value -> option value -> option value -> value -> W -> string * W.
Variable ask_question_about_pdf : value -> option value -> W -> string * W.
Variable get_pdf_info : value -> W -> string * W.

(** The state of a turn: the world and the log of model calls made so far,
    oldest first. *)
Record st : Type := mk_st {
  world : W;
  calls : list request }.

Definition M (A : Type) : Type := st -> result A * st.

Definition ret {A} (a : A) : M A := fun s => (Ok a, s).

Definition raise {A} (e : exn) : M A := fun s => (Raise e, s).

Definition bind {A B} (m : M A) (k : A -> M B) : M B :=
  fun s => match m s with
           | (Ok a, s') => k a s'
           | (Raise e, s') => (Raise e, s')
           end.

Local Notation "'let*' x ':=' m 'in' k" := (bind m (fun x => k))
  (at level 200, x name, m at level 100, k at level 200).

(** [try: m except Exception as e: h(e)]; [KeyboardInterrupt] goes through. *)
Definition try_except {A} (m : M A) (h : exn -> M A) : M A :=
  fun s => match m s with
           | (Raise e, s') => if is_Exception e then h e s' else (Raise e, s')
           | r => r
           end.

(** Run an executor on the world. *)
Definition exec (f : W -> string * W) : M string :=
  fun s => let (r, w') := f (world s) in (Ok r, mk_st w' (calls s)).

(** [self.claude_client.messages.create(...)]: the call is logged, then
    answered (or raises). *)
Definition create (messages : list message) : M response :=
  fun s =>
    let req := mk_request model_id 2000 system_prompt messages tools in
    (api (calls s) req, mk_st (world s) (calls s ++ [req])%list).

Fixpoint lookup (k : string) (d : list (string * value)) : option value :=
  match d with
  | [] => None
  | (k', v) :: d' => if String.eqb k k' then Some v else lookup k d'
  end.

(** [tool_input[k]]: raises [KeyError] when absent. *)
Definition getitem (d : list (string * value)) (k : string) : M value :=
  match lookup k d with
  | Some v => ret v
  | None => raise (KeyError k)
  end.

(** [tool_input.get(k, default)]. *)
Definition get_default (d : list (string * value)) (k : string) (dflt : value)
  : value :=
  match lookup k d with
  | Some v => v
  | None => dflt
  end.

(** [block.text]. *)
Definition block_text (b : block) : M string :=
  match b with
  | TextBlock t => ret t
  | ToolUseBlock _ _ _ => raise (AttributeError "ToolUseBlock" "text")
  end.

(** [xs[0]]. *)
Definition first_item {A} (xs : list A) : M A :=
  match xs with
  | x :: _ => ret x
  | [] => raise (IndexError "list index out of range")
  end.

(** The [if tool_name == ... elif ... else] dispatch chain. *)
Definition dispatch (tool_name : string) (tool_input : list (string * value))
  : M string :=
  if String.eqb tool_name "send_simple_email" then
    let* to := getitem tool_input "to" in
    let* subject := getitem tool_input "subject" in
    let* msg := getitem tool_input "message" in
    exec (send_simple_email_tool to subject msg)
  else if String.eqb tool_name "search_web" then
    let* q := getitem tool_input "query" in
    exec (search_web_tool q)
  else if String.eqb tool_name "read_pdf_text" then
    let* fp := getitem tool_input "file_path" in
    exec (read_pdf_text fp (lookup "page_start" tool_input)
                           (lookup "page_end" tool_input))
  else if String.eqb tool_name "read_pdf_with_ocr" then
    let* fp := getitem tool_input "file_path" in
    exec (read_pdf_with_ocr fp (lookup "page_start" tool_input)
                               (lookup "page_end" tool_input)
                               (get_default tool_input "ocr_language" (VStr "eng")))
  else if String.eqb tool_name "ask_question_about_pdf" then
    let* q := getitem tool_input "question" in
    exec (ask_question_about_pdf q (lookup "file_path" tool_input))
  else if String.eqb tool_name "get_pdf_info" then
    let* fp := getitem tool_input "file_path" in
    exec (get_pdf_info fp)
  else ret ("Unknown tool: " ++ tool_name).

(** [for content_block in response.content: ...], accumulating
    [tool_results] and [assistant_text]. *)
Fixpoint run_blocks (bs : list block) (tool_results : list tool_result)
    (assistant_text : string) : M (list tool_result * string) :=
  match bs with
  | [] => ret (tool_results, assistant_text)
  | TextBlock t :: bs' => run_blocks bs' tool_results (assistant_text ++ t)
  | ToolUseBlock id name inp :: bs' =>
      let* result := dispatch name inp in
      run_blocks bs' (tool_results ++ [mk_tool_result id result])%list assistant_text
  end.

(** The messages one history entry contributes. *)
Definition entry_messages (e : entry) : list message :=
  mk_message "user" (CText (user e))
  :: (if String.eqb (assistant e) "" then []
      else [mk_message "assistant" (CText (assistant e))]).

(** [messages]: the last 10 history entries, then the current message. *)
Definition context_messages (history : list entry) (user_message : string)
  : list message :=
  (flat_map entry_messages (last_n 10 history)
   ++ [mk_message "user" (CText user_message)])%list.

(** The body of the [try:] block of [process_with_claude]. *)
Definition process_body (history : list entry) (user_message : string)
  : M string :=
  let messages := context_messages history user_message in
  let* response := create messages in
  if String.eqb (stop_reason response) "tool_use" then
    let* acc := run_blocks (content response) [] "" in
    let (tool_results, assistant_text) := acc in
    match tool_results with
    | _ :: _ =>
        let messages' :=
          (messages ++ [mk_message "assistant" (CBlocks (content response));
                        mk_message "user" (CResults tool_results)])%list in
        let* final_response := create messages' in
        let* b := first_item (content final_response) in
        block_text b
    | [] => ret assistant_text
    end
  else
    let* b := first_item (content response) in
    block_text b.

Definition no_client_message : string :=
  "Error: Claude API not available. Please set ANTHROPIC_API_KEY in your .env file".

(** [process_with_claude]; [has_client] is [self.claude_client is not None]. *)
Definition process_with_claude (has_client : bool) (history : list entry)
    (user_message : string) : M string :=
  if negb has_client then ret no_client_message
  else try_except (process_body history user_message)
         (fun e => ret ("Error processing with Claude: " ++ str_exn e)).

(** ** The session loop [run] *)

(** What one [input()] call yields: a line typed at clock reading [now]
    ([datetime.now().isoformat()]), or an exception ([EOFError],
    [KeyboardInterrupt]). *)
Inductive input_event : Type :=
| Typed (now raw : string)
| InputRaises (e : exn).

Definition goodbye : string :=
  "Goodbye! Thanks for using the AI Personal Assistant!".

(** [self.conversation_history[-1]["assistant"] = r] *)
Definition set_last_assistant (h : list entry) (r : string) : list entry :=
  match rev h with
  | [] => []
  | e :: t => rev (mk_entry (timestamp e) (user e) r :: t)
  end.

(** The [while True:] loop, over a finite prefix of the input events; the
    result lists the lines printed (responses, error lines, the goodbye;
    prompts and emoji left out) and the final history. *)
Fixpoint run_loop (inputs : list input_event) (history : list entry)
  : M (list string * list entry) :=
  match inputs with
  | [] => ret ([], history)
  | InputRaises e :: rest =>
      if is_Exception e then
        let* r := run_loop rest history in
        ret (("Error: " ++ str_exn e) :: fst r, snd r)
      else ret ([goodbye], history)
  | Typed now raw :: rest =>
      let user_input := strip raw in
      if String.eqb user_input "" then run_loop rest history
      else if existsb (String.eqb (lower user_input)) ["quit"; "exit"; "bye"]
      then ret ([goodbye], history)
      else
        let history1 := (history ++ [mk_entry now user_input ""])%list in
        fun s =>
          match process_with_claude true history1 user_input s with
          | (Ok response, s1) =>
              match run_loop rest (set_last_assistant history1 response) s1 with
              | (Ok r, s2) => (Ok (response :: fst r, snd r), s2)
              | (Raise e, s2) => (Raise e, s2)
              end
          | (Raise e, s1) =>
              if is_Exception e then
                match run_loop rest history1 s1 with
                | (Ok r, s2) => (Ok (("Error: " ++ str_exn e) :: fst r, snd r), s2)
                | (Raise e', s2) => (Raise e', s2)
                end
              else (Ok ([goodbye], history1), s1)
          end
  end.

Definition no_client_notice : string :=
  "Claude API not available. Please set ANTHROPIC_API_KEY in your .env file".

(** [run]: without a client the session ends before reading input. *)
Definition run (has_client : bool) (inputs : list input_event)
  : M (list string * list entry) :=
  if negb has_client then ret ([no_client_notice], [])
  else run_loop inputs [].

(** The keys a dispatch branch reads with [tool_input[k]]: the [required]
    list of the tool's schema ([[]] for a name not in [tools]). *)
Definition required_keys (name : string) : list string :=
  match find (fun t => String.eqb (ts_name t) name) tools with
  | Some t => ts_required t
  | None => []
  end.

(** A block whose dispatch finds every key it indexes. *)
Definition wf_block (b : block) : bool :=
  match b with
  | TextBlock _ => true
  | ToolUseBlock _ name inp =>
      forallb (fun k => match lookup k inp with Some _ => true | None => false end)
              (required_keys name)
  end.

(** The (id, name) of the tool_use blocks, in order. *)
Definition tool_calls (bs : list block) : list (string * string) :=
  flat_map (fun b => match b with
                     | ToolUseBlock id name _ => [(id, name)]
                     | TextBlock _ => []
                     end) bs.

Definition tool_ids (bs : list block) : list string := map fst (tool_calls bs).

(** The first request of a turn. *)
Definition first_request (history : list entry) (user_message : string)
  : request :=
  mk_request model_id 2000 system_prompt (context_messages history user_message) tools.

(** The second request of a turn whose first response [resp] asked for
    tools and whose dispatch produced [rs]. *)
Definition tool_round_request (history : list entry) (user_message : string)
    (resp : response) (rs : list tool_result) : request :=
  mk_request model_id 2000 system_prompt
    (context_messages history user_message
     ++ [mk_message "assistant" (CBlocks (content resp));
         mk_message "user" (CResults rs)])%list
    tools.

End Loop.

Arguments ret {W A} a _.
Arguments raise {W A} e _.
Arguments mk_st {W} world calls.
Arguments world {W} _.
Arguments calls {W} _.

(** *** Concrete instances used by the witnesses and counterexamples *)

(** A world that logs every executed tool call. *)
Definition Log : Type := list string.

Definition log_tool (name : string) (r : string) (w : Log) : string * Log :=
  (r, (w ++ [name])%list).

Definition ex_email (_ _ _ : value) := log_tool "send_simple_email" "Email sent".
Definition ex_search (_ : value) := log_tool "search_web" "Sunny, 21C".
Definition ex_read (_ : value) (_ _ : option value) := log_tool "read_pdf_text" "read".
Definition ex_ocr (_ : value) (_ _ : option value) (_ : value) :=
  log_tool "read_pdf_with_ocr" "read".
Definition ex_ask (_ : value) (_ : option value) := log_tool "ask_question_about_pdf" "answer".
Definition ex_info (_ : value) := log_tool "get_pdf_info" "info".

(** A model that answers the first call with [r1] and later calls with [r2]. *)
Definition scripted_api (r1 r2 : response) (prior : list request) (_ : request)
  : result response :=
  match prior with
  | [] => Ok r1
  | _ => Ok r2
  end.

Definition process_ex (api : list request -> request -> result response)
  : bool -> list entry -> string -> M Log string :=
  process_with_claude Log api ex_email ex_search ex_read ex_ocr ex_ask ex_info.

Definition run_ex (api : list request -> request -> result response)
  : bool -> list input_event -> M Log (list string * list entry) :=
  run Log api ex_email ex_search ex_read ex_ocr ex_ask ex_info.

Definition start : st Log := mk_st [] [].

(** A model that is unreachable. *)
Definition offline_api (_ : list request) (_ : request) : result response :=
  Raise (APIError "Connection error.").

Definition ask_weather : string := "What is the weather in Paris? Email it to me.".

Definition resp_final : response :=
  mk_response "end_turn" [TextBlock "It is sunny in Paris."].

(** A search call, then an email call whose input lacks "to". *)
Definition resp_missing_key : response :=
  mk_response "tool_use"
    [TextBlock "I will look that up and email you.";
     ToolUseBlock "toolu_01" "search_web" [("query", VStr "weather in Paris")];
     ToolUseBlock "toolu_02" "send_simple_email"
       [("subject", VStr "Weather"); ("message", VStr "Sunny")]].

Definition resp_search : response :=
  mk_response "tool_use"
    [TextBlock "Let me look that up.";
     ToolUseBlock "toolu_01" "search_web" [("query", VStr "weather in Paris")]].

(** A second response that asks for another tool before its text. *)
Definition resp_search_again : response :=
  mk_response "tool_use"
    [ToolUseBlock "toolu_02" "search_web" [("query", VStr "weather in Lyon")];
     TextBlock "It is sunny in Paris."].

(** A call to [order_pizza], which this dispatcher does not handle. *)
Definition resp_unknown : response :=
  mk_response "tool_use"
    [ToolUseBlock "toolu_01" "order_pizza" [("pizza_type", VStr "margherita")];
     ToolUseBlock "toolu_02" "search_web" [("query", VStr "pizza near me")]].

Definition resp_search_email : response :=
  mk_response "tool_use"
    [TextBlock "I will look that up and email you.";
     ToolUseBlock "toolu_01" "search_web" [("query", VStr "weather in Paris")];
     ToolUseBlock "toolu_02" "send_simple_email"
       [("to", VStr "me@example.com"); ("subject", VStr "Weather");
        ("message", VStr "Sunny")]].

Definition resp_unknown_missing_key : response :=
  mk_response "tool_use"
    [ToolUseBlock "toolu_01" "order_pizza" [("pizza_type", VStr "margherita")];
     ToolUseBlock "toolu_02" "send_simple_email"
       [("subject", VStr "Pizza"); ("message", VStr "Ordered")]].

(** The lines [run] hands to the model, in order: the typed lines,
    stripped, that are not blank. *)
Fixpoint lines_kept (inputs : list input_event) : list string :=
  match inputs with
  | [] => []
  | Typed _ raw :: rest =>
      if String.eqb (strip raw) "" then lines_kept rest else strip raw :: lines_kept rest
  | InputRaises _ :: rest => lines_kept rest
  end.

(** No typed line asks to quit and no [input()] call raises a
    non-[Exception]. *)
Definition no_quit (inputs : list input_event) : Prop :=
  Forall (fun x => match x with
                   | Typed _ raw =>
                       existsb (String.eqb (lower (strip raw))) ["quit"; "exit"; "bye"] = false
                   | InputRaises e => is_Exception e = true
                   end) inputs.

End Dialogue.

(* ------------------------------------------------------------------ *)
(** ** Python floats and their formatting *)

Module PyFloat.
Local Open Scope Z_scope.

(** [float(n)] for a Python int, as done by [float * int]: rounded to
    nearest-even; [OverflowError] when the result is not finite. *)
Definition float_of_int (n : Z) : result float :=
  match SpecFloat.binary_normalize prec emax n 0 false with
  | S754_infinity _ => Raise (OverflowError "int too large to convert to float")
  | f => Ok (SF2Prim f)
  end.

Definition nl : string := String (ascii_of_nat 10) EmptyString.

Definition digit (d : Z) : ascii := ascii_of_nat (48 + Z.to_nat d).

Fixpoint digits_aux (fuel : nat) (n : Z) (acc : string) : string :=
  match fuel with
  | O => acc
  | S f =>
      let acc' := String (digit (n mod 10)) acc in
      if Z.ltb n 10 then acc' else digits_aux f (n / 10) acc'
  end.

(** [str(n)] for a Python int. *)
Definition z_to_str (n : Z) : string :=
  let fuel := S (Z.to_nat (Z.log2 (Z.abs n))) in
  if Z.ltb n 0 then "-" ++ digits_aux fuel (- n) EmptyString
  else digits_aux fuel n EmptyString.

(** [num / den] rounded to nearest, ties to even ([num >= 0], [den > 0]). *)
Definition div_round_even (num den : Z) : Z :=
  let q := num / den in
  let r := num mod den in
  if Z.ltb (2 * r) den then q
  else if Z.ltb den (2 * r) then q + 1
  else if Z.even q then q else q + 1.

(** [num / 2^k] rounded to nearest, ties to even ([num >= 0], [k >= 0]). *)
Definition shift_round_even (num k : Z) : Z :=
  let q := Z.shiftr num k in
  let r2 := Z.shiftl (num - Z.shiftl q k) 1 in
  let half := Z.shiftl 1 k in
  if Z.ltb r2 half then q
  else if Z.ltb half r2 then q + 1
  else if Z.even q then q else q + 1.

(** [m * 2^e] in hundredths, rounded to nearest-even. *)
Definition cents_of (m : positive) (e : Z) : Z :=
  if Z.leb 0 e then Z.shiftl (Z.pos m * 100) e
  else shift_round_even (Z.pos m * 100) (- e).

(** Two decimals of [c] hundredths ([c >= 0]). *)
Definition show_cents (c : Z) : string :=
  z_to_str (c / 100) ++ "." ++
  String (digit ((c mod 100) / 10)) (String (digit (c mod 10)) EmptyString).

(** [f"{x:.2f}"]: the exact binary value correctly rounded to two
    decimals (ties to even), with the sign of [x]. *)
Definition format_2f (x : float) : string :=
  match Prim2SF x with
  | S754_nan => "nan"
  | S754_infinity s => if s then "-inf" else "inf"
  | S754_zero s => if s then "-0.00" else "0.00"
  | S754_finite s m e => (if s then "-" else "") ++ show_cents (cents_of m e)
  end.

(** Where the value [M] lies between [m * H] and [(m + 1) * H], as the
    record of a right shift by [H] tells it. *)
Definition inbetween (M H : Z) (r : shr_record) : Prop :=
  0 <= shr_m r /\ 0 <= M - shr_m r * H < H /\
  match shr_r r, shr_s r with
  | false, false => M - shr_m r * H = 0
  | false, true => 0 < 2 * (M - shr_m r * H) < H
  | true, false => 2 * (M - shr_m r * H) = H
  | true, true => H < 2 * (M - shr_m r * H)
  end.

End PyFloat.

(* ------------------------------------------------------------------ *)
(** ** [src/mcp_servers/pizza_ordering.py] *)

Module Pizza.
Import PyFloat.
Local Open Scope Z_scope.

Record pizza : Type := mk_pizza {
  p_name : string;
  p_price : float;
  p_description : string }.

Record restaurant : Type := mk_restaurant {
  r_name : string;
  r_phone : string;
  r_delivery_fee : float }.

(** [PIZZA_MENU] and [RESTAURANTS]: dicts, so key order is insertion order. *)
Definition PIZZA_MENU : list (string * pizza) :=
  [ ("margherita", mk_pizza "Margherita Pizza" 12.99%float "Classic tomato sauce, mozzarella, and basil");
    ("pepperoni", mk_pizza "Pepperoni Pizza" 14.99%float "Tomato sauce, mozzarella, and pepperoni");
    ("veggie", mk_pizza "Veggie Supreme" 16.99%float "Tomato sauce, mozzarella, bell peppers, onions, mushrooms, olives");
    ("meat_lovers", mk_pizza "Meat Lovers" 18.99%float "Tomato sauce, mozzarella, pepperoni, sausage, bacon, ham");
    ("hawaiian", mk_pizza "Hawaiian Pizza" 15.99%float "Tomato sauce, mozzarella, ham, and pineapple");
    ("supreme", mk_pizza "Supreme Pizza" 19.99%float "Tomato sauce, mozzarella, pepperoni, sausage, bell peppers, onions, mushrooms, olives") ].

Definition RESTAURANTS : list (string * restaurant) :=
  [ ("pizza_hut", mk_restaurant "Pizza Hut" "1-800-PIZZA-HUT" 3.99%float);
    ("dominos", mk_restaurant "Domino's" "1-800-DOMINOS" 2.99%float);
    ("papa_johns", mk_restaurant "Papa John's" "1-800-PAPA-JOHN" 4.99%float) ].

Fixpoint assoc {A} (k : string) (d : list (string * A)) : option A :=
  match d with
  | [] => None
  | (k', v) :: d' => if String.eqb k k' then Some v else assoc k d'
  end.

Definition SIZE_MULTIPLIERS : list (string * float) :=
  [("small", 0.8%float); ("medium", 1.0%float); ("large", 1.2%float); ("extra_large", 1.4%float)].

(** [{...}.get(size, 1.0)] *)
Definition size_multiplier (size : string) : float :=
  match assoc size SIZE_MULTIPLIERS with
  | Some m => m
  | None => 1.0%float
  end.

Record order : Type := mk_order {
  order_id : Z;
  o_pizza_type : string;
  pizza_name : string;
  o_size : string;
  o_quantity : Z;
  o_restaurant : string;
  restaurant_name : string;
  customer_name : string;
  customer_phone : string;
  delivery_address : string;
  special_instructions : string;
  pizza_price : float;
  subtotal : float;
  delivery_fee : float;
  total : float;
  status : string;
  order_time : string }.

(** [pizza_price], [subtotal], [total] as the code computes them. *)
Definition pricing (base_price size_multiplier : float) (quantity : Z)
    (fee : float) : result (float * float * float) :=
  let pizza_price := (base_price * size_multiplier)%float in
  match float_of_int quantity with
  | Raise e => Raise e
  | Ok q =>
      let subtotal := (pizza_price * q)%float in
      Ok (pizza_price, subtotal, (subtotal + fee)%float)
  end.

Definition confirmation (o : order) (phone : string) : string :=
  "Pizza Order Confirmed!" ++ nl ++ nl ++
  "Order ID: #" ++ z_to_str (order_id o) ++ nl ++
  "Pizza: " ++ pizza_name o ++ " (" ++ o_size o ++ ")" ++ nl ++
  "Quantity: " ++ z_to_str (o_quantity o) ++ nl ++
  "Restaurant: " ++ restaurant_name o ++ nl ++
  "Customer: " ++ customer_name o ++ nl ++
  (if String.eqb (customer_phone o) "" then ""
   else "Phone: " ++ customer_phone o ++ nl) ++
  (if String.eqb (delivery_address o) "" then ""
   else "Address: " ++ delivery_address o ++ nl) ++
  (if String.eqb (special_instructions o) "" then ""
   else "Special Instructions: " ++ special_instructions o ++ nl) ++
  nl ++ "Pricing:" ++ nl ++
  "Pizza Price: $" ++ format_2f (pizza_price o) ++ " each" ++ nl ++
  "Subtotal: $" ++ format_2f (subtotal o) ++ nl ++
  "Delivery Fee: $" ++ format_2f (delivery_fee o) ++ nl ++
  "Total: $" ++ format_2f (total o) ++ nl ++ nl ++
  "To complete your order, call: " ++ phone ++ nl ++
  "Status: " ++ status o.

(** [order_pizza] on the store [orders_db]; [now] is
    [datetime.now().isoformat()].  Emoji of the messages are left out. *)
Definition order_pizza (orders_db : list order) (now : string)
    (pizza_type size : string) (quantity : Z) (restaurant : string)
    (customer_name customer_phone delivery_address special_instructions : string)
  : string * list order :=
  match assoc pizza_type PIZZA_MENU with
  | None =>
      ("Error: Pizza type '" ++ pizza_type ++ "' not found. Available types: "
         ++ join ", " (map fst PIZZA_MENU), orders_db)
  | Some p =>
      match assoc restaurant RESTAURANTS with
      | None =>
          ("Error: Restaurant '" ++ restaurant
             ++ "' not found. Available restaurants: "
             ++ join ", " (map fst RESTAURANTS), orders_db)
      | Some r =>
          match pricing (p_price p) (size_multiplier size) quantity
                  (r_delivery_fee r) with
          | Raise e => ("Error placing order: " ++ str_exn e, orders_db)
          | Ok (pp, sub, tot) =>
              let o := mk_order (Z.of_nat (length orders_db) + 1) pizza_type
                         (p_name p) size quantity restaurant (r_name r)
                         customer_name customer_phone delivery_address
                         special_instructions pp sub (r_delivery_fee r) tot
                         "pending" now in
              (confirmation o (r_phone r), (orders_db ++ [o])%list)
          end
      end
  end.

(** The status text of [check_order_status] for the id asked for and the
    order found; the emoji of the title is left out. *)
Definition order_status_text (order_id_asked : Z) (o : order) : string :=
  "Order #" ++ z_to_str order_id_asked ++ " Status" ++ nl ++ nl ++
  "Pizza: " ++ pizza_name o ++ " (" ++ o_size o ++ ")" ++ nl ++
  "Quantity: " ++ z_to_str (o_quantity o) ++ nl ++
  "Restaurant: " ++ restaurant_name o ++ nl ++
  "Customer: " ++ customer_name o ++ nl ++
  "Total: $" ++ format_2f (total o) ++ nl ++
  "Status: " ++ status o ++ nl ++
  "Order Time: " ++ order_time o ++ nl ++
  (if String.eqb (delivery_address o) "" then ""
   else "Delivery Address: " ++ delivery_address o ++ nl).

(** [check_order_status]: the first order of the store with that id. *)
Fixpoint check_order_status (orders_db : list order) (order_id_asked : Z) : string :=
  match orders_db with
  | [] => "Order #" ++ z_to_str order_id_asked ++ " not found."
  | o :: rest =>
      if Z.eqb (order_id o) order_id_asked then order_status_text order_id_asked o
      else check_order_status rest order_id_asked
  end.

(** One line of [list_orders]. *)
Definition order_line (o : order) : string :=
  "Order #" ++ z_to_str (order_id o) ++ ": " ++ pizza_name o ++ " - $"
  ++ format_2f (total o) ++ " - " ++ status o ++ nl.

(** [list_orders]: the header, then [orders_text += ...] for each order;
    the emoji of the header is left out. *)
Definition list_orders (orders_db : list order) : string :=
  match orders_db with
  | [] => "No pizza orders found."
  | _ =>
      fold_left (fun acc o => acc ++ order_line o) orders_db
        ("All Pizza Orders (" ++ z_to_str (Z.of_nat (length orders_db)) ++ " total):"
         ++ nl ++ nl)
  end.

(** The store's ids are 1, 2, ..., its length, in order. *)
Definition ids_consecutive (orders_db : list order) : Prop :=
  map order_id orders_db = map (fun k => Z.of_nat k + 1) (seq 0 (length orders_db)).

(** Base prices and delivery fees in cents. *)
Definition PIZZA_CENTS : list (string * Z) :=
  [("margherita", 1299); ("pepperoni", 1499); ("veggie", 1699);
   ("meat_lovers", 1899); ("hawaiian", 1599); ("supreme", 1999)].

Definition FEE_CENTS : list (string * Z) :=
  [("pizza_hut", 399); ("dominos", 299); ("papa_johns", 499)].

(** The size multipliers as floats and in tenths. *)
Definition MULTIPLIER_TENTHS : list (float * Z) :=
  [(0.8%float, 8); (1.0%float, 10); (1.2%float, 12); (1.4%float, 14)].

(** The spec's side of the pizza total: the total [base_price * size_multiplier *
    quantity + delivery_fee] in exact decimal arithmetic, in thousandths of
    a dollar, with base price and fee in cents and the multiplier in
    tenths ({small: 8, medium: 10, large: 12, extra_large: 14}, and 10 for
    any other size). *)
Definition spec_base_cents (pizza_type : string) : option Z :=
  assoc pizza_type PIZZA_CENTS.

Definition spec_fee_cents (restaurant : string) : option Z :=
  assoc restaurant FEE_CENTS.

Definition spec_multiplier_tenths (size : string) : Z :=
  match assoc size [("small", 8); ("medium", 10); ("large", 12); ("extra_large", 14)] with
  | Some m => m
  | None => 10
  end.

Definition spec_total_mills (base_cents : Z) (size : string) (quantity : Z)
    (fee_cents : Z) : Z :=
  base_cents * spec_multiplier_tenths size * quantity + fee_cents * 10.

(** The spec's side of the pizza total: the exact amount of [t] thousandths written
    with two decimals, rounded to nearest (ties to even). *)
Definition spec_format (t : Z) : string :=
  (if Z.ltb t 0 then "-" else "") ++ show_cents (div_round_even (Z.abs t) 10).

(** Sign and hundredths of a finite float, as [format_2f] prints them. *)
Definition float_cents (x : float) : option (bool * Z) :=
  match Prim2SF x with
  | S754_zero s => Some (s, 0)
  | S754_finite s m e => Some (s, cents_of m e)
  | _ => None
  end.

(** Decision procedure comparing the code's total with the exact one on one
    input: a pizza [p] of [b] cents, a restaurant [rr] of fee [f] cents, a
    multiplier [m] of [t] tenths, a quantity [q]. *)
Definition total_ok (p : pizza) (rr : restaurant) (b f : Z) (m : float) (t q : Z) : bool :=
  match pricing (p_price p) m q (r_delivery_fee rr) with
  | Ok (_, _, tot) =>
      let x := b * t * q + f * 10 in
      match float_cents tot with
      | Some (s, c) => Bool.eqb s (Z.ltb x 0) && Z.eqb c (div_round_even (Z.abs x) 10)
      | None => false
      end
  | Raise _ => false
  end.

(** The error budget of the price [pp] of a pizza of [bt] thousandths, in
    units of [2^-128]: a positive float of exponent at least [-75], between
    8 and 32, within [10^-11] of [bt] thousandths. *)
Definition price_scaled_ok (pp : float) (bt : Z) : bool :=
  match Prim2SF pp with
  | S754_finite false mp ep =>
      let A := Zpos mp * 2 ^ (ep + 128) in
      Z.leb (-75) ep && Z.leb (8 * 2 ^ 128) A && Z.leb A (32 * 2 ^ 128) &&
      Z.leb (100000000000 * Z.abs (1000 * A - bt * 2 ^ 128)) (2 ^ 128)
  | _ => false
  end.

(** The same for a delivery fee of [f] cents: between 2 and 8, within
    [10^-12] of it. *)
Definition fee_scaled_ok (ff : float) (f : Z) : bool :=
  match Prim2SF ff with
  | S754_finite false mf ef =>
      let Fv := Zpos mf * 2 ^ (ef + 128) in
      Z.leb (-75) ef && Z.leb (2 * 2 ^ 128) Fv && Z.leb Fv (8 * 2 ^ 128) &&
      Z.leb (1000000000000 * Z.abs (1000 * Fv - 10 * f * 2 ^ 128)) (2 ^ 128)
  | _ => false
  end.

(** For every pizza, restaurant and multiplier of the tables: the error
    budgets of the price and the fee, an even number of tenths, a price
    above the fee, and the total of quantity 0. *)
Definition pricing_errors_ok : bool :=
  forallb (fun '(pt, b) =>
    match assoc pt PIZZA_MENU with
    | None => false
    | Some p =>
        forallb (fun '(r, f) =>
          match assoc r RESTAURANTS with
          | None => false
          | Some rr =>
              forallb (fun '(m, t) =>
                price_scaled_ok (p_price p * m)%float (b * t) &&
                fee_scaled_ok (r_delivery_fee rr) f &&
                Z.even t && Z.ltb (10 * f) (b * t) && total_ok p rr b f m t 0)
                MULTIPLIER_TENTHS
          end)
          FEE_CENTS
    end)
    PIZZA_CENTS.

End Pizza.

(* ------------------------------------------------------------------ *)
(** ** [src/mcp_servers/meeting_scheduler.py] *)

Module Calendar.
Local Open Scope Z_scope.

(** A naive [datetime], in minutes since 1970-01-01 00:00.  A date argument
    ["YYYY-MM-DD"] is taken as its day number since 1970-01-01 and a time
    ["HH:MM"] as its hour and minute fields; [datetime.strptime] raises
    [ValueError] (here [None]) when a field is out of range. *)
Definition strptime (day hh mm : Z) : option Z :=
  if (Z.leb 0 hh && Z.ltb hh 24 && Z.leb 0 mm && Z.ltb mm 60)%bool
  then Some (day * 1440 + hh * 60 + mm)
  else None.

(** A calendar event, with its start and end as absolute instants (UTC
    minutes since the epoch), as the Calendar service stores it. *)
Record event : Type := mk_event {
  summary : string;
  ev_start : Z;
  ev_end : Z }.

(** [service.events().insert] of an event whose [dateTime] fields carry no
    offset and whose [timeZone] is ['America/Chicago']: the service reads
    the wall-clock times in that zone.  [chicago_offset] is the zone's UTC
    offset in minutes at that date (-360 in winter, -300 in summer). *)
Definition insert_local (cal : list event) (chicago_offset : Z)
    (title : string) (start_local end_local : Z) : list event :=
  (cal ++ [mk_event title (start_local - chicago_offset)
                       (end_local - chicago_offset)])%list.

(** [service.events().list(timeMin=.., timeMax=.., singleEvents=True)] with
    RFC 3339 bounds: the events whose end is after [time_min] and whose start
    is before [time_max] (both bounds exclusive, as the Calendar API
    documents them). *)
Definition events_list (cal : list event) (time_min time_max : Z) : list event :=
  filter (fun e => Z.ltb time_min (ev_end e) && Z.ltb (ev_start e) time_max) cal.

(** [schedule_meeting] on the calendar [cal]; the confirmation text is left
    out: [None] stands for the invalid-format error, [Some cal'] for the
    calendar after the insert. *)
Definition schedule_meeting (cal : list event) (chicago_offset : Z)
    (title : string) (date hh mm : Z) (duration_minutes : Z)
  : option (list event) :=
  match strptime date hh mm with
  | None => None
  | Some start_datetime =>
      let end_datetime := start_datetime + duration_minutes in
      Some (insert_local cal chicago_offset title start_datetime end_datetime)
  end.

(** The branches of [check_availability]'s answer. *)
Inductive availability : Type :=
| InvalidFormat
| Available
| Conflicts (events : list event).

(** [check_availability]: the wall-clock times are sent as [isoformat() +
    'Z'], i.e. read as UTC instants. *)
Definition check_availability (cal : list event) (date hh mm : Z)
    (end_time : option (Z * Z)) (duration_minutes : Z) : availability :=
  match strptime date hh mm with
  | None => InvalidFormat
  | Some start_datetime =>
      let end_datetime :=
        match end_time with
        | Some (eh, em) => strptime date eh em
        | None => Some (start_datetime + duration_minutes)
        end in
      match end_datetime with
      | None => InvalidFormat
      | Some end_datetime =>
          let time_min := start_datetime in
          let time_max := end_datetime in
          match events_list cal time_min time_max with
          | [] => Available
          | events => Conflicts events
          end
      end
  end.

End Calendar.

(* ------------------------------------------------------------------ *)
(** ** [src/mcp_servers/pdf_reader.py] *)

Module Pdf.
Import PyFloat.
Local Open Scope Z_scope.

Record page_data : Type := mk_page {
  page_number : Z;
  text : string;
  word_count : Z;
  combined_text : option string }.

Record doc_data : Type := mk_doc {
  pages : list page_data;
  total_pages : Z }.

(** [d.get(k)] on a dict kept as an association list in insertion order. *)
Fixpoint dict_get {A} (k : string) (d : list (string * A)) : option A :=
  match d with
  | [] => None
  | (k', v) :: d' => if String.eqb k k' then Some v else dict_get k d'
  end.

(** [d[k] = v]: an existing key keeps its place, a new one goes last. *)
Definition dict_set {A} (k : string) (v : A) (d : list (string * A))
  : list (string * A) :=
  if existsb (fun kv => String.eqb k (fst kv)) d
  then map (fun kv => if String.eqb k (fst kv) then (k, v) else kv) d
  else (d ++ [(k, v)])%list.

(** [range(a, b)]. *)
Definition range (a b : Z) : list Z :=
  map (fun k => a + Z.of_nat k) (seq 0 (Z.to_nat (b - a))).

(** The page range of [read_pdf_text]; [None] and [0] are both falsy. *)
Definition page_range (total_pages : Z) (page_start page_end : option Z) : Z * Z :=
  let start := match page_start with
               | Some ps => if Z.eqb ps 0 then 0 else ps - 1
               | None => 0
               end in
  let end_ := match page_end with
              | Some pe => if Z.eqb pe 0 then total_pages else pe
              | None => total_pages
              end in
  let start := Z.max 0 (Z.min start (total_pages - 1)) in
  let end_ := Z.max (start + 1) (Z.min end_ total_pages) in
  (start, end_).

(** A PDF file is the list of its pages' texts ([page.get_text()]);
    [doc[i]] for [i >= 0] raises [IndexError] past the last page. *)
Definition doc_getitem (pdf : list string) (i : Z) : result string :=
  match nth_error pdf (Z.to_nat i) with
  | Some t => if Z.leb 0 i then Ok t else Raise (IndexError ("page " ++ z_to_str i ++ " not in document"))
  | None => Raise (IndexError ("page " ++ z_to_str i ++ " not in document"))
  end.

(** The extraction loop: one [page_data] per page number, in order. *)
Fixpoint read_pages (pdf : list string) (page_nums : list Z) : result (list page_data) :=
  match page_nums with
  | [] => Ok []
  | page_num :: rest =>
      match doc_getitem pdf page_num with
      | Raise e => Raise e
      | Ok t =>
          match read_pages pdf rest with
          | Raise e => Raise e
          | Ok ps =>
              Ok (mk_page (page_num + 1) t (Z.of_nat (length (split_ws t))) None :: ps)
          end
      end
  end.

Definition sum_Z (l : list Z) : Z := fold_left Z.add l 0.

Definition page_preview (pd : page_data) : string :=
  "--- Page " ++ z_to_str (page_number pd) ++ " (" ++ z_to_str (word_count pd)
  ++ " words) ---" ++ nl ++ py_prefix 500 (text pd)
  ++ (if Nat.ltb 500 (py_len (text pd)) then "..." else "") ++ nl ++ nl.

(** [read_pdf_text] over the files [files] (path to PDF) and the module's
    [document_store]; emoji of the messages are left out. *)
Definition read_pdf_text (files : list (string * list string))
    (document_store : list (string * doc_data)) (file_path : string)
    (page_start page_end : option Z) : string * list (string * doc_data) :=
  match dict_get file_path files with
  | None => ("Error: File not found at " ++ file_path, document_store)
  | Some doc =>
      let total_pages := Z.of_nat (length doc) in
      let '(start, end_) := page_range total_pages page_start page_end in
      match read_pages doc (range start end_) with
      | Raise e => ("Error reading PDF: " ++ str_exn e, document_store)
      | Ok pages_text =>
          let total_words := sum_Z (map word_count pages_text) in
          let total_chars := sum_Z (map (fun pd => Z.of_nat (py_len (text pd))) pages_text) in
          let document_store' :=
            dict_set file_path (mk_doc pages_text total_pages) document_store in
          let output :=
            "Successfully read PDF: " ++ file_path ++ nl ++ nl
            ++ "Pages processed: " ++ z_to_str (start + 1) ++ "-" ++ z_to_str end_
            ++ " of " ++ z_to_str total_pages ++ nl
            ++ "Total words: " ++ z_to_str total_words ++ ", Characters: "
            ++ z_to_str total_chars ++ nl ++ nl
            ++ String.concat "" (map page_preview (firstn 3 pages_text))
            ++ (if Nat.ltb 3 (length pages_text)
                then "... and " ++ z_to_str (Z.of_nat (length pages_text) - 3)
                     ++ " more pages" ++ nl
                else "") in
          (output, document_store')
      end
  end.

(** [page_data.get('combined_text') or page_data.get('text', '')]. *)
Definition text_content (pd : page_data) : string :=
  match combined_text pd with
  | Some c => if String.eqb c "" then text pd else c
  | None => text pd
  end.

Definition page_block (pd : page_data) : string :=
  nl ++ "[Page " ++ z_to_str (page_number pd) ++ "]" ++ nl ++ text_content pd ++ nl.

Definition page_block_of (fp : string) (pd : page_data) : string :=
  nl ++ "[" ++ fp ++ " - Page " ++ z_to_str (page_number pd) ++ "]" ++ nl
  ++ text_content pd ++ nl.

(** [all_text] and [sources] of [ask_question_about_pdf]. *)
Definition gather (document_store : list (string * doc_data))
    (file_path : option string) : string * list string :=
  match file_path with
  | Some fp =>
      if negb (String.eqb fp "") then
        match dict_get fp document_store with
        | Some d => (String.concat "" (map page_block (pages d)), [fp])
        | None =>
            (String.concat "" (map (fun '(fp', d) => String.concat "" (map (page_block_of fp') (pages d)))
                            document_store), map fst document_store)
        end
      else
        (String.concat "" (map (fun '(fp', d) => String.concat "" (map (page_block_of fp') (pages d)))
                        document_store), map fst document_store)
  | None =>
      (String.concat "" (map (fun '(fp', d) => String.concat "" (map (page_block_of fp') (pages d)))
                      document_store), map fst document_store)
  end.

(** [question_words]: lowercased words longer than three characters. *)
Definition question_words (question : string) : list string :=
  filter (fun w => Nat.ltb 3 (py_len w)) (split_ws (lower question)).

(** [sum(1 for word in question_words if word in sentence_lower)]. *)
Definition matches (words : list string) (sentence : string) : nat :=
  length (filter (fun w => contains (lower sentence) w) words).

(** [relevant_sentences] before sorting. *)
Definition relevant (words : list string) (sentences : list string) : list (string * nat) :=
  map (fun s => (strip s, matches words s))
      (filter (fun s => Nat.ltb 0 (matches words s)) sentences).

(** [l.sort(key=lambda x: x[1], reverse=True)]: Python's sort is stable,
    also with [reverse=True]; as an insertion sort that puts each element
    after those of greater or equal key. *)
Fixpoint insert_desc {A} (key : A -> nat) (x : A) (l : list A) : list A :=
  match l with
  | [] => [x]
  | y :: l' => if Nat.ltb (key y) (key x) then x :: l else y :: insert_desc key x l'
  end.

Definition sort_desc {A} (key : A -> nat) (l : list A) : list A :=
  fold_left (fun acc x => insert_desc key x acc) l [].

Definition bullet : string := String (ascii_of_nat 226) (String (ascii_of_nat 128) (String (ascii_of_nat 162) EmptyString)).

Definition excerpt (sm : string * nat) : string :=
  if String.eqb (fst sm) "" then "" else bullet ++ " " ++ fst sm ++ nl ++ nl.

Definition found_answer (sources : list string) (question : string)
    (top : list (string * nat)) : string :=
  "Answer based on " ++ z_to_str (Z.of_nat (length sources)) ++ " document(s):"
  ++ nl ++ nl ++ "Question: " ++ question ++ nl ++ nl
  ++ "Relevant excerpts:" ++ nl ++ nl
  ++ String.concat "" (map excerpt top)
  ++ nl ++ "Sources: " ++ join ", " sources.

Definition not_found (question : string) : string :=
  "Could not find relevant information about '" ++ question
  ++ "' in the loaded PDF(s)." ++ nl ++ nl ++ "Try:" ++ nl
  ++ bullet ++ " Loading more content from the PDF" ++ nl
  ++ bullet ++ " Using different keywords" ++ nl
  ++ bullet ++ " Reading with OCR if the content is in images".

Definition no_documents : string :=
  "Error: No PDF files have been loaded. Please use read_pdf_text or read_pdf_with_ocr first.".

Definition no_text : string :=
  "Error: No text content found in the loaded PDF(s).".

(** The entry of one document in [list_loaded_documents].  The store holds
    what [read_pdf_text] writes, which has no ['has_ocr'] key, so the last
    line reads "No"; the emoji are left out. *)
Definition loaded_entry (file_path : string) (d : doc_data) : string :=
  file_path ++ nl
  ++ "   " ++ bullet ++ " Total pages: " ++ z_to_str (total_pages d) ++ nl
  ++ "   " ++ bullet ++ " Pages loaded: " ++ z_to_str (Z.of_nat (length (pages d))) ++ nl
  ++ "   " ++ bullet ++ " Has OCR: No" ++ nl ++ nl.

(** [list_loaded_documents]. *)
Definition list_loaded_documents (document_store : list (string * doc_data)) : string :=
  match document_store with
  | [] => "No PDF documents are currently loaded."
  | _ =>
      fold_left (fun acc kv => acc ++ loaded_entry (fst kv) (snd kv)) document_store
        ("Loaded PDF documents:" ++ nl ++ nl)
  end.

(** [ask_question_about_pdf]; emoji of the messages are left out.  Nothing
    in the body raises, so the [except] branch is not reachable. *)
Definition ask_question_about_pdf (document_store : list (string * doc_data))
    (question : string) (file_path : option string) : string :=
  match document_store with
  | [] => no_documents
  | _ =>
      let '(all_text, sources) := gather document_store file_path in
      if String.eqb (strip all_text) "" then no_text
      else
        let sentences := split_on "." all_text in
        let relevant_sentences :=
          sort_desc snd (relevant (question_words question) sentences) in
        match relevant_sentences with
        | [] => not_found question
        | _ => found_answer sources question (firstn 5 relevant_sentences)
        end
  end.

End Pdf.

(* ================================================================== *)
(** * Properties *)

Module DialogueFacts.
Import Dialogue.

Section Facts.

Variable W : Type.
Variable api : list request -> request -> result response.
Variable send_simple_email_tool : value -> value -> value -> W -> string * W.
Variable search_web_tool : value -> W -> string * W.
Variable read_pdf_text : value -> option value -> option value -> W -> string * W.
Variable read_pdf_with_ocr :
  value -> option value -> option value -> value -> W -> string * W.
Variable ask_question_about_pdf : value -> option value -> W -> string * W.
Variable get_pdf_info : value -> W -> string * W.

Local Abbreviation dispatch' :=
  (dispatch W send_simple_email_tool search_web_tool read_pdf_text
     read_pdf_with_ocr ask_question_about_pdf get_pdf_info).
Local Abbreviation run_blocks' :=
  (run_blocks W send_simple_email_tool search_web_tool read_pdf_text
     read_pdf_with_ocr ask_question_about_pdf get_pdf_info).
Local Abbreviation process_body' :=
  (process_body W api send_simple_email_tool search_web_tool read_pdf_text
     read_pdf_with_ocr ask_question_about_pdf get_pdf_info).
Local Abbreviation process' :=
  (process_with_claude W api send_simple_email_tool search_web_tool read_pdf_text
     read_pdf_with_ocr ask_question_about_pdf get_pdf_info).
Local Abbreviation run_loop' :=
  (run_loop W api send_simple_email_tool search_web_tool read_pdf_text
     read_pdf_with_ocr ask_question_about_pdf get_pdf_info).
Local Abbreviation run' :=
  (run W api send_simple_email_tool search_web_tool read_pdf_text
     read_pdf_with_ocr ask_question_about_pdf get_pdf_info).

(** A dispatch branch that finds its keys runs its executor and returns;
    it never calls the model. *)
Lemma dispatch_wf (id n : string) (inp : list (string * value)) (s : st W) :
  wf_block (ToolUseBlock id n inp) = true ->
  exists r w', dispatch' n inp s = (Ok r, mk_st w' (calls s)).
Proof.
  intros Hwf. unfold wf_block, required_keys in Hwf.
  unfold dispatch, bind, getitem, ret, raise, exec.
  destruct (String.eqb_spec n "send_simple_email") as [->|_].
  { simpl in Hwf.
    destruct (lookup "to" inp); [|discriminate].
    destruct (lookup "subject" inp); [|discriminate].
    destruct (lookup "message" inp); [|discriminate].
    destruct (send_simple_email_tool _ _ _ _); eauto. }
  destruct (String.eqb_spec n "search_web") as [->|_].
  { simpl in Hwf. destruct (lookup "query" inp); [|discriminate].
    destruct (search_web_tool _ _); eauto. }
  destruct (String.eqb_spec n "read_pdf_text") as [->|_].
  { simpl in Hwf. destruct (lookup "file_path" inp); [|discriminate].
    destruct (read_pdf_text _ _ _ _); eauto. }
  destruct (String.eqb_spec n "read_pdf_with_ocr") as [->|_].
  { simpl in Hwf. destruct (lookup "file_path" inp); [|discriminate].
    destruct (read_pdf_with_ocr _ _ _ _ _); eauto. }
  destruct (String.eqb_spec n "ask_question_about_pdf") as [->|_].
  { simpl in Hwf. destruct (lookup "question" inp); [|discriminate].
    destruct (ask_question_about_pdf _ _ _); eauto. }
  destruct (String.eqb_spec n "get_pdf_info") as [->|_].
  { simpl in Hwf. destruct (lookup "file_path" inp); [|discriminate].
    destruct (get_pdf_info _ _); eauto. }
  destruct s; eauto.
Qed.

(** A name outside [tools] falls through to the [else] branch. *)
Lemma dispatch_unknown (n : string) (inp : list (string * value)) (s : st W) :
  ~ In n (map ts_name tools) ->
  dispatch' n inp s = (Ok ("Unknown tool: " ++ n), s).
Proof.
  intros Hn. simpl in Hn.
  unfold dispatch.
  repeat match goal with
  | |- context [String.eqb n ?c] =>
      destruct (String.eqb_spec n c) as [->|_]; [tauto|]
  end.
  reflexivity.
Qed.

Lemma unknown_wf (id n : string) (inp : list (string * value)) :
  ~ In n (map ts_name tools) -> wf_block (ToolUseBlock id n inp) = true.
Proof.
  intros Hn. simpl in Hn. unfold wf_block, required_keys, tools.
  cbn -[String.eqb].
  repeat match goal with
  | |- context [String.eqb ?c n] =>
      destruct (String.eqb_spec c n) as [<-|_]; [tauto|]
  end.
  reflexivity.
Qed.

(** What each dispatched block contributes to [tool_results]. *)
Definition answers (c : string * string) (r : tool_result) : Prop :=
  tool_use_id r = fst c /\
  (~ In (snd c) (map ts_name tools) -> tr_content r = "Unknown tool: " ++ snd c).

(** The block loop answers every tool_use block, in order, when every
    dispatch finds its keys. *)
Lemma run_blocks_wf (bs : list block) :
  forallb wf_block bs = true ->
  forall acc txt (s : st W),
  exists rs txt' w',
    run_blocks' bs acc txt s = (Ok (acc ++ rs, txt')%list, mk_st w' (calls s))
    /\ Forall2 answers (tool_calls bs) rs.
Proof.
  induction bs as [|b bs IH]; intros Hwf acc txt s.
  - exists [], txt, (world s). rewrite app_nil_r. destruct s; split; [reflexivity|constructor].
  - simpl in Hwf. apply andb_prop in Hwf as [Hb Hbs].
    destruct b as [t|id n inp].
    + simpl. destruct (IH Hbs acc (txt ++ t) s) as (rs & txt' & w' & Hrun & Hf).
      exists rs, txt', w'. split; assumption.
    + simpl. unfold bind at 1.
      destruct (dispatch_wf id n inp s Hb) as (r & w1 & Hd).
      rewrite Hd.
      destruct (IH Hbs (acc ++ [mk_tool_result id r])%list txt (mk_st w1 (calls s)))
        as (rs & txt' & w' & Hrun & Hf).
      exists (mk_tool_result id r :: rs), txt', w'. split.
      * rewrite Hrun. rewrite <- app_assoc. reflexivity.
      * constructor; [|exact Hf].
        split; [reflexivity|]. intros Hn.
        rewrite (dispatch_unknown n inp s Hn) in Hd.
        injection Hd as Hr _. rewrite <- Hr. reflexivity.
Qed.

Lemma answers_ids (cs : list (string * string)) (rs : list tool_result) :
  Forall2 answers cs rs -> map tool_use_id rs = map fst cs.
Proof.
  induction 1 as [|c r cs rs [Hid _] _ IH]; simpl; congruence.
Qed.

Lemma answers_in (cs : list (string * string)) (rs : list tool_result) c :
  Forall2 answers cs rs -> In c cs -> exists r, In r rs /\ answers c r.
Proof.
  induction 1 as [|c' r cs rs Hc _ IH]; simpl; [tauto|].
  intros [<-|Hin]; [eauto|].
  destruct (IH Hin) as (r' & ? & ?); eauto.
Qed.

Lemma tool_calls_in (bs : list block) id n inp :
  In (ToolUseBlock id n inp) bs -> In (id, n) (tool_calls bs).
Proof.
  induction bs as [|b bs IH]; simpl; [tauto|].
  intros [->|Hin]; simpl; [auto|].
  apply in_or_app; right; auto.
Qed.

(** Reading the answer never touches the state. *)
Lemma answer_keeps_state (bs : list block) (s : st W) :
  exists r, bind W (first_item W bs) (fun b => block_text W b) s = (r, s).
Proof.
  unfold bind, first_item, block_text, raise, ret.
  destruct bs as [|[t|id n inp] bs]; eauto.
Qed.

(** The tool round of a turn, when every block finds its keys and at least
    one block asks for a tool: the second call carries one answer per
    tool_use block. *)
Lemma tool_round_shape (hist : list entry) (msg : string) (s : st W)
    (resp : response) :
  api (calls s) (first_request hist msg) = Ok resp ->
  stop_reason resp = "tool_use" ->
  forallb wf_block (content resp) = true ->
  tool_calls (content resp) <> [] ->
  exists rs r s',
    process' true hist msg s = (r, s') /\
    calls s' = (calls s ++ [first_request hist msg;
                            tool_round_request hist msg resp rs])%list /\
    Forall2 answers (tool_calls (content resp)) rs.
Proof.
  intros Hapi Hstop Hwf Hne.
  destruct (run_blocks_wf (content resp) Hwf [] ""
              (mk_st (world s) (calls s ++ [first_request hist msg])%list))
    as (rs & txt & w' & Hrun & Hans).
  exists rs.
  unfold process_with_claude, try_except, process_body. cbn [negb].
  unfold bind at 1. unfold create at 1. fold (first_request hist msg).
  rewrite Hapi, Hstop. cbn [String.eqb Ascii.eqb Bool.eqb andb].
  unfold bind at 1. rewrite Hrun. cbn [app calls world].
  destruct rs as [|r0 rs0].
  { inversion Hans. congruence. }
  unfold bind at 1, create at 1.
  fold (tool_round_request hist msg resp (r0 :: rs0)).
  cbn [calls world]. rewrite <- app_assoc. cbn [app].
  set (st2 := {| world := w'; calls := (calls s ++ [first_request hist msg;
           tool_round_request hist msg resp (r0 :: rs0)])%list |}).
  destruct (api (calls s ++ [first_request hist msg])%list
                (tool_round_request hist msg resp (r0 :: rs0))) as [final|e].
  - destruct (answer_keeps_state (content final) st2) as [x Hx].
    rewrite Hx. destruct x as [a|e]; [|destruct (is_Exception e)];
      do 2 eexists; (split; [reflexivity|]); auto.
  - destruct (is_Exception e); do 2 eexists; (split; [reflexivity|]); auto.
Qed.

(** A dispatch branch that misses one of its keys raises [KeyError] on the
    first key it misses, before running its executor. *)
Lemma dispatch_missing (id n : string) (inp : list (string * value)) (s : st W) :
  wf_block (ToolUseBlock id n inp) = false ->
  exists k, In k (required_keys n) /\ lookup k inp = None /\
            dispatch' n inp s = (Raise (KeyError k), s).
Proof.
  intros Hwf. unfold wf_block, required_keys in Hwf.
  unfold dispatch, bind, getitem, ret, raise, exec, required_keys.
  destruct (String.eqb_spec n "send_simple_email") as [->|N1].
  { simpl in Hwf |- *.
    destruct (lookup "to" inp) eqn:E1; [|exists "to"; auto].
    destruct (lookup "subject" inp) eqn:E2; [|exists "subject"; auto].
    destruct (lookup "message" inp) eqn:E3; [|exists "message"; auto].
    discriminate. }
  destruct (String.eqb_spec n "search_web") as [->|N2].
  { simpl in Hwf |- *. destruct (lookup "query" inp) eqn:E1; [discriminate|].
    exists "query"; auto. }
  destruct (String.eqb_spec n "read_pdf_text") as [->|N3].
  { simpl in Hwf |- *. destruct (lookup "file_path" inp) eqn:E1; [discriminate|].
    exists "file_path"; auto. }
  destruct (String.eqb_spec n "read_pdf_with_ocr") as [->|N4].
  { simpl in Hwf |- *. destruct (lookup "file_path" inp) eqn:E1; [discriminate|].
    exists "file_path"; auto. }
  destruct (String.eqb_spec n "ask_question_about_pdf") as [->|N5].
  { simpl in Hwf |- *. destruct (lookup "question" inp) eqn:E1; [discriminate|].
    exists "question"; auto. }
  destruct (String.eqb_spec n "get_pdf_info") as [->|N6].
  { simpl in Hwf |- *. destruct (lookup "file_path" inp) eqn:E1; [discriminate|].
    exists "file_path"; auto. }
  exfalso. revert Hwf. unfold tools. cbn -[String.eqb].
  repeat match goal with
  | |- context [String.eqb ?c n] =>
      destruct (String.eqb_spec c n) as [<-|_]; [congruence|]
  end.
  discriminate.
Qed.

(** The block loop stops at the first block that misses a key: the
    [KeyError] escapes it, and no model call is made. *)
Lemma run_blocks_missing (bs : list block) :
  forallb wf_block bs = false ->
  forall acc txt (s : st W),
  exists k id n inp s',
    In (ToolUseBlock id n inp) bs /\ In k (required_keys n) /\ lookup k inp = None /\
    run_blocks' bs acc txt s = (Raise (KeyError k), s') /\ calls s' = calls s.
Proof.
  induction bs as [|b bs IH]; intros Hwf acc txt s; [discriminate|].
  simpl in Hwf. destruct (wf_block b) eqn:Hb.
  - destruct b as [t|id n inp].
    + destruct (IH Hwf acc (txt ++ t) s) as (k & id & n & inp & s' & Hin & Hk & Hl & Hr & Hc).
      exists k, id, n, inp, s'. simpl. auto.
    + destruct (dispatch_wf id n inp s Hb) as (r & w1 & Hd).
      destruct (IH Hwf (acc ++ [mk_tool_result id r])%list txt (mk_st w1 (calls s)))
        as (k & id' & n' & inp' & s' & Hin & Hk & Hl & Hr & Hc).
      exists k, id', n', inp', s'. simpl. unfold bind at 1. rewrite Hd.
      auto.
  - destruct b as [t|id n inp]; [discriminate|].
    destruct (dispatch_missing id n inp s Hb) as (k & Hk & Hl & Hd).
    exists k, id, n, inp, s. simpl. unfold bind at 1. rewrite Hd. auto.
Qed.

(** A turn whose first response stops for tool use and holds a tool_use
    block of a known tool missing a required key ends after that one
    model call: its answer is the error string of the [KeyError], and no
    tool result is sent back. *)
Lemma missing_key_turn (hist : list entry) (msg : string) (s : st W)
    (resp : response) :
  api (calls s) (first_request hist msg) = Ok resp ->
  stop_reason resp = "tool_use" ->
  forallb wf_block (content resp) = false ->
  exists k id n inp s',
    In (ToolUseBlock id n inp) (content resp) /\ In n (map ts_name tools) /\
    In k (required_keys n) /\ lookup k inp = None /\
    process' true hist msg s =
      (Ok ("Error processing with Claude: '" ++ k ++ "'"), s') /\
    calls s' = (calls s ++ [first_request hist msg])%list.
Proof.
  intros Hapi Hstop Hwf.
  destruct (run_blocks_missing (content resp) Hwf [] ""
              (mk_st (world s) (calls s ++ [first_request hist msg])%list))
    as (k & id & n & inp & s' & Hin & Hk & Hl & Hrun & Hc).
  exists k, id, n, inp, s'.
  split; [exact Hin|]. split.
  { destruct (in_dec string_dec n (map ts_name tools)) as [Hn|Hn]; [exact Hn|].
    exfalso. simpl in Hn. revert Hk. unfold required_keys, tools.
    cbn -[String.eqb].
    repeat match goal with
    | |- context [String.eqb ?c n] =>
        destruct (String.eqb_spec c n) as [<-|_]; [tauto|]
    end.
    simpl. tauto. }
  split; [exact Hk|]. split; [exact Hl|]. split; [|exact Hc].
  unfold process_with_claude, try_except, process_body. cbn [negb].
  unfold bind at 1. unfold create at 1. fold (first_request hist msg).
  rewrite Hapi, Hstop. cbn [String.eqb Ascii.eqb Bool.eqb andb].
  unfold bind at 1. rewrite Hrun. reflexivity.
Qed.

(** [C1] When the first response of a turn stops for tool use and holds
    N >= 1 tool_use blocks, each carrying the keys its tool's schema
    requires, the turn makes a second model call whose messages are the
    first call's messages, then the original assistant response, then one
    user message with exactly N tool results, whose ids are the blocks'
    ids in order. When a tool_use block of a known tool lacks one of those
    keys, the [KeyError] ends the turn with the string
    "Error processing with Claude: '<key>'" after the first call, and no
    tool result is sent back. *)
Theorem tool_round_answers_every_call (hist : list entry) (msg : string)
    (s : st W) (resp : response) :
  api (calls s) (first_request hist msg) = Ok resp ->
  stop_reason resp = "tool_use" ->
  (forallb wf_block (content resp) = true ->
   tool_ids (content resp) <> [] ->
   exists rs r s',
     process' true hist msg s = (r, s') /\
     calls s' = (calls s ++ [first_request hist msg;
                             tool_round_request hist msg resp rs])%list /\
     map tool_use_id rs = tool_ids (content resp) /\
     length rs = length (tool_ids (content resp))) /\
  (forallb wf_block (content resp) = false ->
   exists k id n inp s',
     In (ToolUseBlock id n inp) (content resp) /\ In n (map ts_name tools) /\
     In k (required_keys n) /\ lookup k inp = None /\
     process' true hist msg s =
       (Ok ("Error processing with Claude: '" ++ k ++ "'"), s') /\
     calls s' = (calls s ++ [first_request hist msg])%list).
Proof.
  intros Hapi Hstop. split.
  - intros Hwf Hne.
    assert (Hne' : tool_calls (content resp) <> []).
    { intros Hc. apply Hne. unfold tool_ids. rewrite Hc. reflexivity. }
    destruct (tool_round_shape hist msg s resp Hapi Hstop Hwf Hne')
      as (rs & r & s' & Hrun & Hcalls & Hans).
    assert (Hids := answers_ids _ _ Hans).
    exists rs, r, s'. repeat split; auto.
    unfold tool_ids. rewrite <- Hids, length_map. reflexivity.
  - intros Hwf. exact (missing_key_turn hist msg s resp Hapi Hstop Hwf).
Qed.

(** [C2] A tool name the dispatcher does not know yields the result
    "Unknown tool: <name>" without raising and without touching the
    state; in a turn whose other tool_use blocks find their keys, that
    result goes back to the model in the second call under the block's
    id. When another tool_use block of the same response, of a known
    tool, lacks a required key, the turn ends with
    "Error processing with Claude: '<key>'" after the first call and the
    unknown tool's result is not sent back. *)
Theorem unknown_tool_answered (hist : list entry) (msg : string) (s : st W)
    (resp : response) (id n : string) (inp : list (string * value)) :
  ~ In n (map ts_name tools) ->
  (forall s0 : st W, dispatch' n inp s0 = (Ok ("Unknown tool: " ++ n), s0)) /\
  (api (calls s) (first_request hist msg) = Ok resp ->
   stop_reason resp = "tool_use" ->
   In (ToolUseBlock id n inp) (content resp) ->
   (forallb wf_block (content resp) = true ->
    exists rs r s',
      process' true hist msg s = (r, s') /\
      calls s' = (calls s ++ [first_request hist msg;
                              tool_round_request hist msg resp rs])%list /\
      In (mk_tool_result id ("Unknown tool: " ++ n)) rs) /\
   (forallb wf_block (content resp) = false ->
    exists k s',
      process' true hist msg s =
        (Ok ("Error processing with Claude: '" ++ k ++ "'"), s') /\
      calls s' = (calls s ++ [first_request hist msg])%list)).
Proof.
  intros Hn. split.
  - intros s0. apply dispatch_unknown; exact Hn.
  - intros Hapi Hstop Hin. split.
    + intros Hwf.
      assert (Hc := tool_calls_in _ _ _ _ Hin).
      assert (Hne : tool_calls (content resp) <> []).
      { intros E. rewrite E in Hc. exact Hc. }
      destruct (tool_round_shape hist msg s resp Hapi Hstop Hwf Hne)
        as (rs & r & s' & Hrun & Hcalls & Hans).
      exists rs, r, s'. repeat split; auto.
      destruct (answers_in _ _ _ Hans Hc) as ([id' c'] & Hr & Hid & Hcont).
      cbn [fst snd] in Hid, Hcont. rewrite <- (Hcont Hn), <- Hid. exact Hr.
    + intros Hwf.
      destruct (missing_key_turn hist msg s resp Hapi Hstop Hwf)
        as (k & id' & n' & inp' & s' & _ & _ & _ & _ & Hrun & Hcalls).
      exists k, s'. auto.
Qed.

(** Dispatch never calls the model, whatever it raises. *)
Lemma dispatch_calls (n : string) (inp : list (string * value)) (s s' : st W) r :
  dispatch' n inp s = (r, s') -> calls s' = calls s.
Proof.
  unfold dispatch, bind, getitem, ret, raise, exec.
  repeat match goal with
  | |- context [if ?b then _ else _] => destruct b
  | |- context [match lookup ?k ?i with _ => _ end] => destruct (lookup k i)
  | |- context [let (_, _) := ?p in _] => destruct p
  end; intros H; inversion H; reflexivity.
Qed.

Lemma run_blocks_calls (bs : list block) :
  forall acc txt (s s' : st W) r,
  run_blocks' bs acc txt s = (r, s') -> calls s' = calls s.
Proof.
  induction bs as [|[t|id n inp] bs IH]; intros acc txt s s' r H.
  - inversion H. reflexivity.
  - simpl in H. eapply IH. exact H.
  - simpl in H. unfold bind in H.
    destruct (dispatch' n inp s) as [[a|e] s1] eqn:Hd.
    + rewrite (IH _ _ _ _ _ H). eapply dispatch_calls. exact Hd.
    + inversion H; subst. eapply dispatch_calls. exact Hd.
Qed.

(** The calls of a turn: the first request, then at most the tool round. *)
Lemma process_calls (hist : list entry) (msg : string) (s : st W) :
  exists r s' later,
    process' true hist msg s = (r, s') /\
    calls s' = (calls s ++ first_request hist msg :: later)%list /\
    (later = [] \/
     exists resp rs, later = [tool_round_request hist msg resp rs]).
Proof.
  unfold process_with_claude, try_except, process_body. cbn [negb].
  unfold bind at 1. unfold create at 1. fold (first_request hist msg).
  set (s1 := {| world := world s; calls := (calls s ++ [first_request hist msg])%list |}).
  assert (Hs1 : calls s1 = (calls s ++ [first_request hist msg])%list) by reflexivity.
  assert (Fin : forall (x : result string) (s2 : st W),
             calls s2 = calls s1 ->
             exists r s',
               (let (r0, s'0) := (x, s2) in
                match r0 with
                | Ok a => (Ok a, s'0)
                | Raise e => if is_Exception e
                             then ret ("Error processing with Claude: " ++ str_exn e) s'0
                             else (Raise e, s'0)
                end) = (r, s') /\
               calls s' = (calls s ++ [first_request hist msg])%list).
  { intros x s2 E. destruct x as [a|e]; [|destruct (is_Exception e)];
      do 2 eexists; split; try reflexivity; simpl; congruence. }
  destruct (api (calls s) (first_request hist msg)) as [resp|e].
  2:{ destruct (Fin (Raise e) s1 eq_refl) as (r & s' & H1 & H2).
      exists r, s', []. auto. }
  destruct (String.eqb (stop_reason resp) "tool_use").
  2:{ destruct (answer_keeps_state (content resp) s1) as [x Hx].
      rewrite Hx. destruct (Fin x s1 eq_refl) as (r & s' & H1 & H2).
      exists r, s', []. auto. }
  unfold bind at 1.
  destruct (run_blocks' (content resp) [] "" s1) as [x s2] eqn:Hrun.
  assert (Hs2 := run_blocks_calls _ _ _ _ _ _ Hrun).
  destruct x as [[rs txt]|e].
  2:{ destruct (Fin (Raise e) s2 Hs2) as (r & s' & H1 & H2).
      exists r, s', []. auto. }
  destruct rs as [|r0 rs0].
  { destruct (Fin (Ok txt) s2 Hs2) as (r & s' & H1 & H2).
    exists r, s', []. auto. }
  unfold bind at 1, create at 1.
  fold (tool_round_request hist msg resp (r0 :: rs0)).
  set (s3 := {| world := world s2;
                calls := (calls s2 ++ [tool_round_request hist msg resp (r0 :: rs0)])%list |}).
  assert (Hs3 : calls s3 = (calls s ++ [first_request hist msg;
                              tool_round_request hist msg resp (r0 :: rs0)])%list).
  { unfold s3. cbn [calls]. rewrite Hs2, Hs1, <- app_assoc. reflexivity. }
  assert (Fin2 : forall (x : result string),
             exists r s',
               (let (r0, s'0) := (x, s3) in
                match r0 with
                | Ok a => (Ok a, s'0)
                | Raise e => if is_Exception e
                             then ret ("Error processing with Claude: " ++ str_exn e) s'0
                             else (Raise e, s'0)
                end) = (r, s') /\
               calls s' = (calls s ++ [first_request hist msg;
                              tool_round_request hist msg resp (r0 :: rs0)])%list).
  { intros x. destruct x as [a|e]; [|destruct (is_Exception e)];
      do 2 eexists; split; try reflexivity; simpl; exact Hs3. }
  destruct (api (calls s2) (tool_round_request hist msg resp (r0 :: rs0))) as [final|e].
  - destruct (answer_keeps_state (content final) s3) as [x Hx].
    rewrite Hx. destruct (Fin2 x) as (r & s' & H1 & H2).
    exists r, s', [tool_round_request hist msg resp (r0 :: rs0)].
    split; [exact H1|]. split; [exact H2|]. right; eauto.
  - destruct (Fin2 (Raise e)) as (r & s' & H1 & H2).
    exists r, s', [tool_round_request hist msg resp (r0 :: rs0)].
    split; [exact H1|]. split; [exact H2|]. right; eauto.
Qed.

(** [C8] The first model call of a turn carries, oldest first, the
    messages of the most recent [min 10 (length hist)] history entries
    (each entry its user text and, when non-empty, its assistant text) and
    then the current user message; [hist] splits into older entries and
    those recent ones, and every call of the turn starts with exactly
    these messages, so no older entry reaches the model. *)
Theorem context_is_last_ten_turns (hist : list entry) (msg : string) (s : st W) :
  exists older recent r s' later,
    hist = (older ++ recent)%list /\
    length recent = Nat.min 10 (length hist) /\
    process' true hist msg s = (r, s') /\
    calls s' = (calls s ++ first_request hist msg :: later)%list /\
    req_messages (first_request hist msg) =
      (flat_map entry_messages recent ++ [mk_message "user" (CText msg)])%list /\
    Forall (fun req => exists extra,
              req_messages req = (req_messages (first_request hist msg) ++ extra)%list)
           later.
Proof.
  destruct (process_calls hist msg s) as (r & s' & later & Hrun & Hcalls & Hlater).
  exists (firstn (length hist - 10) hist), (last_n 10 hist), r, s', later.
  split; [symmetry; apply firstn_skipn|].
  split; [unfold last_n; rewrite length_skipn; lia|].
  split; [exact Hrun|]. split; [exact Hcalls|]. split; [reflexivity|].
  destruct Hlater as [->|(resp & rs & ->)]; [constructor|].
  constructor; [|constructor]. eexists. reflexivity.
Qed.

(** [C4], as the code has it.  With a model client: an [Exception] raised
    while the turn is processed becomes the returned string
    "Error processing with Claude: <str(e)>"; the only exceptions that
    escape [process_with_claude] are not [Exception]s
    ([KeyboardInterrupt]); and after a turn that returns, [run] goes on
    with the next input line.  Without a client (no API key) nothing is
    raised: [process_with_claude] returns the fixed "Error: Claude API not
    available..." string, and [run] prints a notice and ends before it
    reads any input. *)
Theorem turn_errors_become_strings (hist : list entry) (msg : string) (s : st W) :
  (forall e s',
     process_body' hist msg s = (Raise e, s') -> is_Exception e = true ->
     process' true hist msg s = (Ok ("Error processing with Claude: " ++ str_exn e), s')) /\
  (forall e s', process' true hist msg s = (Raise e, s') -> is_Exception e = false) /\
  (forall now raw rest r s1,
     strip raw <> "" ->
     existsb (String.eqb (lower (strip raw))) ["quit"; "exit"; "bye"] = false ->
     process' true (hist ++ [mk_entry now (strip raw) ""])%list (strip raw) s
       = (Ok r, s1) ->
     run_loop' (Typed now raw :: rest) hist s =
       (let (x, s2) := run_loop' rest
                         (set_last_assistant (hist ++ [mk_entry now (strip raw) ""])%list r)
                         s1 in
        (match x with
         | Ok o => Ok (r :: fst o, snd o)
         | Raise e => Raise e
         end, s2))) /\
  process' false hist msg s = (Ok no_client_message, s) /\
  (forall inputs, run' false inputs s = (Ok ([no_client_notice], []), s)).
Proof.
  split; [|split; [|split; [|split]]].
  - intros e s' Hb He. unfold process_with_claude, try_except. cbn [negb].
    rewrite Hb, He. reflexivity.
  - intros e s'. unfold process_with_claude, try_except. cbn [negb].
    destruct (process_body' hist msg s) as [[a|e'] s2]; [discriminate|].
    destruct (is_Exception e') eqn:He'; [discriminate|].
    intros H. inversion H; subst. exact He'.
  - intros now raw rest r s1 Hne Hq Hp. cbn [run_loop].
    destruct (String.eqb_spec (strip raw) "") as [E|_]; [contradiction|].
    rewrite Hq, Hp.
    destruct (run_loop' rest _ s1) as [[o|e] s2]; reflexivity.
  - reflexivity.
  - intros inputs. reflexivity.
Qed.

End Facts.

End DialogueFacts.

Module DialogueCases.
Import Dialogue DialogueFacts.

(** [C1] fails when an input lacks a required key: the [KeyError] escapes
    the block loop, the outer handler turns it into the turn's answer, and
    no second call is made, although the search already ran. *)
Lemma missing_key_drops_tool_round :
  process_ex (scripted_api resp_missing_key resp_final) true [] ask_weather start
  = (Ok "Error processing with Claude: 'to'",
     mk_st ["search_web"] [first_request [] ask_weather]).
Proof. vm_compute. reflexivity. Qed.

Lemma tool_round_answers_every_call_witness :
  (forallb wf_block (content resp_search_email) = true /\
   tool_ids (content resp_search_email) = ["toolu_01"; "toolu_02"] /\
   exists rs r s',
     process_ex (scripted_api resp_search_email resp_final) true [] ask_weather start
       = (r, s') /\
     calls s' = [first_request [] ask_weather;
                 tool_round_request [] ask_weather resp_search_email rs] /\
     map tool_use_id rs = ["toolu_01"; "toolu_02"] /\
     length rs = 2%nat) /\
  (forallb wf_block (content resp_missing_key) = false /\
   exists k id n inp s',
     In (ToolUseBlock id n inp) (content resp_missing_key) /\
     In n (map ts_name tools) /\ In k (required_keys n) /\ lookup k inp = None /\
     process_ex (scripted_api resp_missing_key resp_final) true [] ask_weather start
       = (Ok ("Error processing with Claude: '" ++ k ++ "'"), s') /\
     calls s' = [first_request [] ask_weather]).
Proof.
  split.
  - refine (conj eq_refl (conj eq_refl _)).
    destruct (tool_round_answers_every_call Log
                (scripted_api resp_search_email resp_final)
                ex_email ex_search ex_read ex_ocr ex_ask ex_info [] ask_weather start
                resp_search_email eq_refl eq_refl) as [H _].
    apply H; [reflexivity | vm_compute; discriminate].
  - refine (conj eq_refl _).
    destruct (tool_round_answers_every_call Log
                (scripted_api resp_missing_key resp_final)
                ex_email ex_search ex_read ex_ocr ex_ask ex_info [] ask_weather start
                resp_missing_key eq_refl eq_refl) as [_ H].
    apply H; reflexivity.
Defined.

(** [C2] fails next to a block that misses a key: the unknown tool's
    result is computed, but the [KeyError] of the email block ends the
    turn after one call, and nothing is sent back to the model. *)
Lemma unknown_tool_not_sent_back :
  process_ex (scripted_api resp_unknown_missing_key resp_final) true [] ask_weather start
  = (Ok "Error processing with Claude: 'to'",
     mk_st [] [first_request [] ask_weather]).
Proof. vm_compute. reflexivity. Qed.

Lemma unknown_tool_answered_witness :
  ~ In "order_pizza" (map ts_name tools) /\
  (exists rs r s',
    process_ex (scripted_api resp_unknown resp_final) true [] ask_weather start = (r, s') /\
    calls s' = [first_request [] ask_weather;
                tool_round_request [] ask_weather resp_unknown rs] /\
    In (mk_tool_result "toolu_01" ("Unknown tool: " ++ "order_pizza")) rs) /\
  (exists k s',
    process_ex (scripted_api resp_unknown_missing_key resp_final) true [] ask_weather start
      = (Ok ("Error processing with Claude: '" ++ k ++ "'"), s') /\
    calls s' = [first_request [] ask_weather]).
Proof.
  assert (Hn : ~ In "order_pizza" (map ts_name tools)).
  { simpl. intuition discriminate. }
  split; [exact Hn|]. split.
  - destruct (unknown_tool_answered Log (scripted_api resp_unknown resp_final)
                ex_email ex_search ex_read ex_ocr ex_ask ex_info [] ask_weather start
                resp_unknown "toolu_01" "order_pizza" [("pizza_type", VStr "margherita")] Hn)
      as [_ H].
    apply H; [reflexivity | reflexivity | simpl; auto | reflexivity].
  - destruct (unknown_tool_answered Log (scripted_api resp_unknown_missing_key resp_final)
                ex_email ex_search ex_read ex_ocr ex_ask ex_info [] ask_weather start
                resp_unknown_missing_key "toolu_01" "order_pizza"
                [("pizza_type", VStr "margherita")] Hn)
      as [_ H].
    apply H; [reflexivity | reflexivity | simpl; auto | reflexivity].
Defined.

(** [C3] The turn's answer is [content[0].text] of the second response:
    when that block is a tool_use block, the access raises and the turn
    returns the error string instead of the response's text; two calls
    were made and the second response's tool call was not executed. *)
Theorem second_response_first_block_not_text :
  process_ex (scripted_api resp_search resp_search_again) true [] ask_weather start
  = (Ok "Error processing with Claude: 'ToolUseBlock' object has no attribute 'text'",
     mk_st ["search_web"]
       [first_request [] ask_weather;
        tool_round_request [] ask_weather resp_search
          [mk_tool_result "toolu_01" "Sunny, 21C"]]).
Proof. vm_compute. reflexivity. Qed.

(** [C4] fails for the missing API key: it is no exception, the turn's
    answer is not "Error processing with ...", and the session reads no
    input at all. *)
Lemma no_key_is_not_a_turn_error :
  process_ex (scripted_api resp_final resp_final) false [] ask_weather start
    = (Ok no_client_message, start) /\
  starts_with "Error processing with" no_client_message = false /\
  run_ex (scripted_api resp_final resp_final) false
    [Typed "t0" "hello"; Typed "t1" "what's the weather?"] start
    = (Ok ([no_client_notice], []), start).
Proof. vm_compute. repeat split. Qed.

Lemma turn_errors_become_strings_witness :
  process_body Log offline_api ex_email ex_search ex_read ex_ocr ex_ask ex_info
    [] ask_weather start
    = (Raise (APIError "Connection error."),
       mk_st [] [first_request [] ask_weather]) /\
  process_ex offline_api true [] ask_weather start
    = (Ok ("Error processing with Claude: " ++ "Connection error."),
       mk_st [] [first_request [] ask_weather]).
Proof.
  destruct (turn_errors_become_strings Log offline_api ex_email ex_search ex_read
              ex_ocr ex_ask ex_info [] ask_weather start) as [H _].
  split; [reflexivity|].
  apply (H (APIError "Connection error.")); reflexivity.
Defined.

End DialogueCases.

(* ------------------------------------------------------------------ *)
(** ** Pizza ordering *)

(** Rounding of SpecFloat's [binary_normalize], [SFmul] and [SFadd] on
    values scaled by [2^K], and the two-decimal printing of a float close
    to a number of thousandths. *)
Module FloatRound.
Import PyFloat.
Local Open Scope Z_scope.

(** [iter_pos] as the [n]-fold iteration. *)
Lemma iter_pos_nat {A} (f : A -> A) (p : positive) (x : A) :
  iter_pos f p x = Nat.iter (Pos.to_nat p) f x.
Proof.
  revert x; induction p as [p IH|p IH|]; intros x; cbn [iter_pos].
  - rewrite IH, IH, Pos2Nat.inj_xI, <- Nat.iter_add.
    rewrite Nat.iter_succ_r. f_equal. lia.
  - rewrite IH, IH, Pos2Nat.inj_xO, <- Nat.iter_add. f_equal. lia.
  - reflexivity.
Qed.

Lemma digits2_pos_size (p : positive) : digits2_pos p = Pos.size p.
Proof. induction p; simpl; congruence. Qed.

Lemma size_bounds (p : positive) :
  2 ^ (Zpos (Pos.size p) - 1) <= Zpos p < 2 ^ Zpos (Pos.size p).
Proof.
  pose proof (Pos.size_gt p) as H1. pose proof (Pos.size_le p) as H2.
  apply Pos2Z.pos_lt_pos in H1. apply Pos2Z.pos_le_pos in H2.
  rewrite Pos2Z.inj_pow in H1, H2. change (Zpos p~0) with (2 * Zpos p) in H2.
  split; [|exact H1].
  replace (Zpos (Pos.size p)) with (Zpos (Pos.size p) - 1 + 1) in H2 by lia.
  rewrite Z.pow_add_r, Z.pow_1_r in H2 by lia. lia.
Qed.

Lemma size_unique (p : positive) (k : Z) :
  1 <= k -> 2 ^ (k - 1) <= Zpos p < 2 ^ k -> Zpos (Pos.size p) = k.
Proof.
  intros Hk [Hlo Hhi]. pose proof (size_bounds p) as [Slo Shi].
  destruct (Z.lt_trichotomy (Zpos (Pos.size p)) k) as [Hlt|[Heq|Hgt]]; [|exact Heq|].
  - assert (2 ^ Zpos (Pos.size p) <= 2 ^ (k - 1)) by (apply Z.pow_le_mono_r; lia). lia.
  - assert (2 ^ k <= 2 ^ (Zpos (Pos.size p) - 1)) by (apply Z.pow_le_mono_r; lia). lia.
Qed.

Lemma iter_xO (m k : positive) : Zpos (Pos.iter xO m k) = Zpos m * 2 ^ Zpos k.
Proof.
  induction k as [|k IH] using Pos.peano_ind.
  - simpl. lia.
  - rewrite Pos.iter_succ, Pos2Z.inj_succ, Z.pow_succ_r by lia.
    rewrite Pos2Z.inj_xO, IH. ring.
Qed.

Lemma shr_1_spec (m : Z) (r s : bool) : 0 <= m ->
  shr_1 {| shr_m := m; shr_r := r; shr_s := s |} =
  {| shr_m := Z.div2 m; shr_r := Z.odd m; shr_s := r || s |}.
Proof. intros Hm. destruct m as [|[p|p|]|p]; try reflexivity. lia. Qed.

Lemma inbetween_step (M H : Z) (r : shr_record) :
  0 < H -> inbetween M H r -> inbetween M (2 * H) (shr_1 r).
Proof.
  destruct r as [m rb sb]. unfold inbetween; cbn [shr_m shr_r shr_s].
  intros HH (Hm & HR & Hc).
  rewrite (shr_1_spec m rb sb Hm). cbn [shr_m shr_r shr_s].
  pose proof (Z.div2_odd m) as Hd.
  remember (Z.div2 m) as m2.
  destruct (Z.odd m); cbn [Z.b2z] in Hd; subst m;
    destruct rb, sb; cbn [orb]; nia.
Qed.

Lemma inbetween_iter (M : Z) (n : nat) : 0 <= M ->
  inbetween M (2 ^ Z.of_nat n)
    (Nat.iter n shr_1 {| shr_m := M; shr_r := false; shr_s := false |}).
Proof.
  intros HM. induction n as [|n IH].
  - unfold inbetween. simpl. lia.
  - rewrite Nat2Z.inj_succ, Z.pow_succ_r by lia. simpl Nat.iter.
    apply inbetween_step; [apply Z.pow_pos_nonneg; lia | exact IH].
Qed.

Lemma round_ne_spec (M H : Z) (r : shr_record) : 0 < H -> inbetween M H r ->
  shr_m r <= round_nearest_even (shr_m r) (loc_of_shr_record r) <= shr_m r + 1 /\
  2 * Z.abs (round_nearest_even (shr_m r) (loc_of_shr_record r) * H - M) <= H.
Proof.
  destruct r as [m rb sb]. unfold inbetween; cbn [shr_m shr_r shr_s].
  intros HH (Hm & HR & Hc).
  destruct rb, sb; cbn [loc_of_shr_record round_nearest_even];
    [| destruct (Z.even m) | |]; nia.
Qed.

Lemma shr_fexp_small (m : positive) (e : Z) :
  -1074 <= Zpos (Pos.size m) + e - 53 -> Zpos (Pos.size m) <= 53 ->
  shr_fexp prec emax (Zpos m) e loc_Exact
  = ({| shr_m := Zpos m; shr_r := false; shr_s := false |}, e).
Proof.
  intros H1 H2. unfold shr_fexp, fexp, emin. cbn [Zdigits2].
  rewrite digits2_pos_size. unfold prec, emax.
  rewrite Z.max_l by lia.
  unfold shr. destruct (Zpos (Pos.size m) + e - 53 - e) eqn:E; [reflexivity| lia | reflexivity].
Qed.

Lemma shr_fexp_big (m : positive) (e : Z) :
  -1074 <= Zpos (Pos.size m) + e - 53 -> 53 < Zpos (Pos.size m) ->
  shr_fexp prec emax (Zpos m) e loc_Exact
  = (Nat.iter (Z.to_nat (Zpos (Pos.size m) - 53)) shr_1
       {| shr_m := Zpos m; shr_r := false; shr_s := false |},
     e + (Zpos (Pos.size m) - 53)).
Proof.
  intros H1 H2. unfold shr_fexp, fexp, emin. cbn [Zdigits2].
  rewrite digits2_pos_size. unfold prec, emax.
  rewrite Z.max_l by lia.
  replace (Zpos (Pos.size m) + e - 53 - e) with (Zpos (Pos.size m) - 53) by lia.
  unfold shr. destruct (Zpos (Pos.size m) - 53) eqn:E; try lia.
  rewrite iter_pos_nat. reflexivity.
Qed.

(** Rounding a mantissa of at most 53 bits is exact. *)
Lemma round_aux_exact (sx : bool) (M : positive) (ex : Z) :
  -1074 <= Zpos (Pos.size M) + ex - 53 -> Zpos (Pos.size M) <= 53 -> ex <= 971 ->
  binary_round_aux prec emax sx (Zpos M) ex loc_Exact = S754_finite sx M ex.
Proof.
  intros H1 H2 H3. unfold binary_round_aux.
  rewrite shr_fexp_small by assumption. cbn [shr_m loc_of_shr_record round_nearest_even shr_r shr_s].
  rewrite shr_fexp_small by assumption. cbn [shr_m].
  unfold prec, emax. replace (Z.leb ex (1024 - 53)) with true by (symmetry; apply Z.leb_le; lia).
  reflexivity.
Qed.

(** The relative error of rounding to 53 bits is at most [2^-53]. *)
Lemma round_aux_spec (sx : bool) (M : positive) (ex : Z) :
  -1074 <= Zpos (Pos.size M) + ex - 53 -> Zpos (Pos.size M) + ex <= 1000 -> ex <= 971 ->
  exists m' e', binary_round_aux prec emax sx (Zpos M) ex loc_Exact = S754_finite sx m' e' /\
    ex <= e' /\ 2 ^ 53 * Z.abs (Zpos m' * 2 ^ (e' - ex) - Zpos M) <= Zpos M.
Proof.
  intros H1 H2 H3.
  destruct (Z.le_gt_cases (Zpos (Pos.size M)) 53) as [Hd|Hd].
  { exists M, ex. rewrite round_aux_exact by assumption. split; [reflexivity|].
    rewrite Z.sub_diag, Z.pow_0_r, Z.mul_1_r, Z.sub_diag. simpl. lia. }
  set (d := Zpos (Pos.size M)) in *.
  pose proof (size_bounds M) as HM. fold d in HM.
  unfold binary_round_aux. rewrite shr_fexp_big by assumption. fold d.
  set (n := d - 53) in *.
  set (r := Nat.iter (Z.to_nat n) shr_1 _).
  assert (Hin : inbetween (Zpos M) (2 ^ n) r).
  { pose proof (inbetween_iter (Zpos M) (Z.to_nat n) ltac:(lia)) as H.
    rewrite Z2Nat.id in H by lia. exact H. }
  assert (HH : 0 < 2 ^ n) by (apply Z.pow_pos_nonneg; lia).
  destruct (round_ne_spec _ _ _ HH Hin) as [Hb He].
  set (m1 := round_nearest_even (shr_m r) (loc_of_shr_record r)) in *.
  assert (Hd1 : 2 ^ (d - 1) = 2 ^ 52 * 2 ^ n)
    by (rewrite <- Z.pow_add_r by lia; f_equal; lia).
  assert (Hd2 : 2 ^ d = 2 ^ 53 * 2 ^ n)
    by (rewrite <- Z.pow_add_r by lia; f_equal; lia).
  destruct Hin as (Hm0 & HR & _).
  assert (Hm : 2 ^ 52 <= shr_m r < 2 ^ 53) by nia.
  assert (Hm1 : 2 ^ 52 <= m1 <= 2 ^ 53) by lia.
  destruct (Z.eq_dec m1 (2 ^ 53)) as [Htop|Htop].
  - rewrite Htop. change (2 ^ 53) with (Zpos 9007199254740992).
    rewrite shr_fexp_big by (cbn -[Z.add Z.sub]; lia).
    change (Z.to_nat (Zpos (Pos.size 9007199254740992) - 53)) with 1%nat.
    change (Zpos (Pos.size 9007199254740992) - 53) with 1.
    cbn [Nat.iter shr_1 shr_m].
    unfold prec, emax.
    replace (Z.leb (ex + n + 1) (1024 - 53)) with true by (symmetry; apply Z.leb_le; lia).
    exists 4503599627370496%positive, (ex + n + 1). split; [reflexivity|]. split; [lia|].
    replace (ex + n + 1 - ex) with (n + 1) by lia.
    rewrite Z.pow_add_r by lia. change (Zpos 4503599627370496) with (2 ^ 52).
    rewrite Htop in He. nia.
  - assert (Hp : exists p1, m1 = Zpos p1) by (exists (Z.to_pos m1); rewrite Z2Pos.id; lia).
    destruct Hp as [p1 Hp1]. rewrite Hp1 in *.
    assert (Hs : Zpos (Pos.size p1) = 53) by (apply size_unique; lia).
    rewrite shr_fexp_small by lia. cbn [shr_m].
    unfold prec, emax.
    replace (Z.leb (ex + n) (1024 - 53)) with true by (symmetry; apply Z.leb_le; lia).
    exists p1, (ex + n). split; [reflexivity|]. split; [lia|].
    replace (ex + n - ex) with n by lia. nia.
Qed.

Lemma scale_err (m M k c : Z) : 0 <= k -> 0 <= c ->
  2 ^ 53 * Z.abs (m * 2 ^ k - M) <= M ->
  2 ^ 53 * Z.abs (m * 2 ^ k * c - M * c) <= M * c.
Proof.
  intros Hk Hc H.
  replace (m * 2 ^ k * c - M * c) with ((m * 2 ^ k - M) * c) by ring.
  rewrite Z.abs_mul, (Z.abs_eq c Hc), Z.mul_assoc.
  apply Z.mul_le_mono_nonneg_r; assumption.
Qed.

(** The exponent range of a mantissa, read off its value. *)
Lemma digits_of_value (M : positive) (ex K lo hi : Z) :
  0 <= ex + K -> 0 <= lo -> 2 ^ lo <= Zpos M * 2 ^ (ex + K) < 2 ^ hi ->
  lo - K < Zpos (Pos.size M) + ex <= hi - K.
Proof.
  intros HK Hlo [H1 H2]. pose proof (size_bounds M) as [S1 S2].
  assert (Hp : 0 < 2 ^ (ex + K)) by (apply Z.pow_pos_nonneg; lia).
  split.
  - destruct (Z.lt_ge_cases (lo - K) (Zpos (Pos.size M) + ex)) as [H|H]; [exact H|].
    assert (2 ^ (Zpos (Pos.size M) + ex + K) <= 2 ^ lo) by (apply Z.pow_le_mono_r; lia).
    replace (Zpos (Pos.size M) + ex + K) with (Zpos (Pos.size M) + (ex + K)) in H0 by lia.
    rewrite Z.pow_add_r in H0 by lia. nia.
  - destruct (Z.le_gt_cases (Zpos (Pos.size M) + ex) (hi - K)) as [H|H]; [exact H|].
    assert (2 ^ hi <= 2 ^ (Zpos (Pos.size M) - 1 + (ex + K))) by (apply Z.pow_le_mono_r; lia).
    rewrite Z.pow_add_r in H0 by lia. nia.
Qed.

(** Rounding, in units of [2^-K], for a value between [2^lo] and [2^hi]
    units. *)
Lemma round_aux_scaled (sx : bool) (M : positive) (ex K lo hi : Z) :
  0 <= ex + K -> 52 <= lo -> K - 1021 <= lo -> hi <= K + 971 ->
  2 ^ lo <= Zpos M * 2 ^ (ex + K) < 2 ^ hi ->
  exists m' e', binary_round_aux prec emax sx (Zpos M) ex loc_Exact = S754_finite sx m' e' /\
    0 <= e' + K /\
    2 ^ 53 * Z.abs (Zpos m' * 2 ^ (e' + K) - Zpos M * 2 ^ (ex + K)) <= Zpos M * 2 ^ (ex + K).
Proof.
  intros HK Hlo1 Hlo2 Hhi HV.
  pose proof (digits_of_value M ex K lo hi HK ltac:(lia) HV) as Hd.
  destruct (round_aux_spec sx M ex) as (m' & e' & Hr & He & Herr); try lia.
  exists m', e'. split; [exact Hr|]. split; [lia|].
  replace (e' + K) with (e' - ex + (ex + K)) by lia.
  rewrite Z.pow_add_r, Z.mul_assoc by lia.
  apply scale_err; [lia | apply Z.pow_nonneg; lia | exact Herr].
Qed.

Lemma binary_round_scaled (sx : bool) (M : positive) (ex K lo hi : Z) :
  0 <= ex + K -> 52 <= lo -> K - 1021 <= lo -> hi <= K + 971 ->
  2 ^ lo <= Zpos M * 2 ^ (ex + K) < 2 ^ hi ->
  exists m' e', binary_round prec emax sx M ex = S754_finite sx m' e' /\
    0 <= e' + K /\
    2 ^ 53 * Z.abs (Zpos m' * 2 ^ (e' + K) - Zpos M * 2 ^ (ex + K)) <= Zpos M * 2 ^ (ex + K).
Proof.
  intros HK Hlo1 Hlo2 Hhi HV.
  pose proof (digits_of_value M ex K lo hi HK ltac:(lia) HV) as Hd.
  pose proof (size_bounds M) as HS.
  unfold binary_round, fexp, emin. rewrite digits2_pos_size. unfold prec, emax.
  rewrite Z.max_l by lia.
  unfold shl_align.
  destruct (Zpos (Pos.size M) + ex - 53 - ex) as [|k|k] eqn:Ek.
  - apply round_aux_scaled with (lo := lo) (hi := hi); assumption.
  - apply round_aux_scaled with (lo := lo) (hi := hi); assumption.
  - set (ez := Zpos (Pos.size M) + ex - 53) in *.
    assert (Hk : Zpos k = ex - ez) by lia.
    assert (Hv : Zpos (Pos.iter xO M k) * 2 ^ (ez + K) = Zpos M * 2 ^ (ex + K)).
    { rewrite iter_xO, <- Z.mul_assoc, <- Z.pow_add_r by lia. f_equal. f_equal. lia. }
    assert (Hs : Zpos (Pos.size (Pos.iter xO M k)) = 53).
    { apply size_unique; [lia|]. rewrite iter_xO, Hk.
      assert (E1 : 2 ^ (53 - 1) = 2 ^ (Zpos (Pos.size M) - 1) * 2 ^ (ex - ez))
        by (rewrite <- Z.pow_add_r by lia; f_equal; lia).
      assert (E2 : 2 ^ 53 = 2 ^ Zpos (Pos.size M) * 2 ^ (ex - ez))
        by (rewrite <- Z.pow_add_r by lia; f_equal; lia).
      rewrite E1, E2. assert (0 < 2 ^ (ex - ez)) by (apply Z.pow_pos_nonneg; lia). nia. }
    rewrite round_aux_exact by lia.
    exists (Pos.iter xO M k), ez. split; [reflexivity|]. split; [lia|].
    rewrite Hv, Z.sub_diag, Z.abs_0, Z.mul_0_r.
    apply Z.mul_nonneg_nonneg; [lia | apply Z.pow_nonneg; lia].
Qed.

Lemma binary_normalize_scaled (N ez K lo hi : Z) :
  N <> 0 -> 0 <= ez + K -> 52 <= lo -> K - 1021 <= lo -> hi <= K + 971 ->
  2 ^ lo <= Z.abs N * 2 ^ (ez + K) < 2 ^ hi ->
  exists m' e', binary_normalize prec emax N ez false = S754_finite (Z.ltb N 0) m' e' /\
    0 <= e' + K /\
    2 ^ 53 * Z.abs (Zpos m' * 2 ^ (e' + K) - Z.abs N * 2 ^ (ez + K)) <= Z.abs N * 2 ^ (ez + K).
Proof.
  intros HN HK H1 H2 H3 HV. destruct N as [|p|p]; [congruence| |];
    apply binary_round_scaled with (lo := lo) (hi := hi); assumption.
Qed.

(** [float(n)] is exact for [0 < |n| < 2^53], and a valid float. *)
Lemma int_exact (n K : Z) : 0 < Z.abs n < 2 ^ 53 -> 53 <= K ->
  exists m e, binary_normalize prec emax n 0 false = S754_finite (Z.ltb n 0) m e /\
    valid_binary (S754_finite (Z.ltb n 0) m e) = true /\
    -53 <= e <= 0 /\ 0 <= e + K /\ Zpos m * 2 ^ (e + K) = Z.abs n * 2 ^ K.
Proof.
  intros Hn HK.
  assert (Hp : exists p, Z.abs n = Zpos p) by (exists (Z.to_pos (Z.abs n)); rewrite Z2Pos.id; lia).
  destruct Hp as [p Hp].
  assert (Hb : binary_normalize prec emax n 0 false = binary_round prec emax (Z.ltb n 0) p 0).
  { destruct n as [|q|q]; [lia| |]; cbn [Z.abs] in Hp; injection Hp as ->; reflexivity. }
  rewrite Hb. pose proof (size_bounds p) as HS.
  assert (Hd : Zpos (Pos.size p) <= 53).
  { destruct (Z.le_gt_cases (Zpos (Pos.size p)) 53) as [H|H]; [exact H|].
    assert (2 ^ 53 <= 2 ^ (Zpos (Pos.size p) - 1)) by (apply Z.pow_le_mono_r; lia). lia. }
  unfold binary_round, fexp, emin. rewrite digits2_pos_size. unfold prec, emax.
  rewrite Z.max_l by lia. unfold shl_align.
  destruct (Zpos (Pos.size p) + 0 - 53 - 0) as [|k|k] eqn:Ek; [| lia |].
  - rewrite round_aux_exact by lia. exists p, 0.
    split; [reflexivity|]. split.
    + unfold valid_binary, bounded, canonical_mantissa, fexp, emin.
      rewrite digits2_pos_size. unfold prec, emax.
      apply andb_true_iff; split; apply Z.leb_le || apply Z.eqb_eq; lia.
    + split; [lia|]. split; [lia|]. rewrite Hp. reflexivity.
  - set (ez := Zpos (Pos.size p) + 0 - 53) in *.
    assert (Hk : Zpos k = 0 - ez) by lia.
    assert (Hs : Zpos (Pos.size (Pos.iter xO p k)) = 53).
    { apply size_unique; [lia|]. rewrite iter_xO, Hk.
      assert (E1 : 2 ^ (53 - 1) = 2 ^ (Zpos (Pos.size p) - 1) * 2 ^ (0 - ez))
        by (rewrite <- Z.pow_add_r by lia; f_equal; lia).
      assert (E2 : 2 ^ 53 = 2 ^ Zpos (Pos.size p) * 2 ^ (0 - ez))
        by (rewrite <- Z.pow_add_r by lia; f_equal; lia).
      rewrite E1, E2. assert (0 < 2 ^ (0 - ez)) by (apply Z.pow_pos_nonneg; lia). nia. }
    rewrite round_aux_exact by lia.
    exists (Pos.iter xO p k), ez. split; [reflexivity|]. split.
    + unfold valid_binary, bounded, canonical_mantissa, fexp, emin.
      rewrite digits2_pos_size, Hs. unfold prec, emax.
      apply andb_true_iff; split; [apply Z.eqb_eq | apply Z.leb_le]; lia.
    + split; [lia|]. split; [lia|]. rewrite iter_xO, Hp, <- Z.mul_assoc, <- Z.pow_add_r by lia.
      f_equal. f_equal. lia.
Qed.

(** Aligning a mantissa to a smaller exponent keeps its value. *)
Lemma shl_align_value (m : positive) (e ez K : Z) :
  ez <= e -> 0 <= ez + K ->
  Zpos (fst (shl_align m e ez)) * 2 ^ (ez + K) = Zpos m * 2 ^ (e + K).
Proof.
  intros H1 H2. unfold shl_align.
  destruct (ez - e) as [|k|k] eqn:E.
  - cbn [fst]. f_equal. f_equal. lia.
  - lia.
  - cbn [fst]. rewrite iter_xO, <- Z.mul_assoc, <- Z.pow_add_r by lia.
    f_equal. f_equal. lia.
Qed.

(** The error budget of the total, in units [U]: the product is off by
    [E2], the price by [D] per unit of quantity, the fee by [G], the sum
    by [E3]. *)
Lemma chain_arith (U W P Sg Fv D G E3 X : Z) :
  0 < U -> W <= 320000000000 * U -> Z.abs P = W ->
  9007199254740992 * Z.abs (Sg - P) <= W ->
  0 <= Fv <= 8 * U -> 10 * Z.abs D <= U -> 1000000000000 * Z.abs G <= U ->
  1000 * (Sg + Fv) - X * U = 1000 * (Sg - P) + D + G ->
  9007199254740992 * Z.abs E3 <= Z.abs (Sg + Fv) ->
  X <> 0 ->
  U <= 2048 * Z.abs (Sg + Fv) /\ Z.abs (Sg + Fv) < 549755813888 * U /\
  (Sg + Fv < 0 <-> X < 0) /\
  Z.abs (1000 * (Z.abs (Sg + Fv) + E3) - Z.abs X * U) < U.
Proof.
  intros HU HW HP H2 HF HD HG Hid H3 HX.
  assert (HE2 : 1000 * Z.abs (Sg - P) * 10 <= U) by lia.
  assert (HZ : 10 * Z.abs (1000 * (Sg + Fv) - X * U) <= 2 * U) by lia.
  assert (HZ0 : Z.abs (Sg + Fv) <= 640000000008 * U) by lia.
  assert (HE3 : 1000 * Z.abs E3 * 10 <= U) by lia.
  assert (HXU : Z.abs X * U = Z.abs (X * U)) by (rewrite Z.abs_mul; lia).
  rewrite HXU.
  set (Y := X * U) in *.
  assert (HY : U <= Y \/ Y <= - U).
  { unfold Y. destruct (Z.lt_ge_cases X 0) as [HXn|HXp].
    - right. replace (- U) with (-1 * U) by ring.
      apply Z.mul_le_mono_nonneg_r; lia.
    - left. rewrite <- (Z.mul_1_l U) at 1.
      apply Z.mul_le_mono_nonneg_r; lia. }
  assert (HYs : Y < 0 <-> X < 0).
  { unfold Y. split; intros H.
    - destruct (Z.lt_ge_cases X 0) as [|H']; [assumption|].
      assert (0 <= X * U) by (apply Z.mul_nonneg_nonneg; lia). lia.
    - apply Z.mul_neg_pos; assumption. }
  clearbody Y. clear HXU.
  rewrite <- HYs.
  split; [lia|]. split; [lia|]. split; [lia|].
  lia.
Qed.

(** The price [pf * q + ff] of the order code, in units of [2^-128]: its
    distance to [X] thousandths, where [X = b * t * q + 10 * f] is the
    exact total, is below one thousandth. *)
Lemma total_chain (pf ff : float) (mp mf : positive) (ep ef b t f q : Z) :
  Prim2SF pf = S754_finite false mp ep ->
  Prim2SF ff = S754_finite false mf ef ->
  -75 <= ep -> -75 <= ef ->
  8 * 2 ^ 128 <= Zpos mp * 2 ^ (ep + 128) <= 32 * 2 ^ 128 ->
  2 * 2 ^ 128 <= Zpos mf * 2 ^ (ef + 128) <= 8 * 2 ^ 128 ->
  100000000000 * Z.abs (1000 * (Zpos mp * 2 ^ (ep + 128)) - b * t * 2 ^ 128) <= 2 ^ 128 ->
  1000000000000 * Z.abs (1000 * (Zpos mf * 2 ^ (ef + 128)) - 10 * f * 2 ^ 128) <= 2 ^ 128 ->
  0 < Z.abs q <= 10000000000 ->
  b * t * q + 10 * f <> 0 ->
  exists s m e,
    Prim2SF (pf * SF2Prim (binary_normalize prec emax q 0 false) + ff)%float
      = S754_finite s m e /\
    0 <= e + 128 /\ s = Z.ltb (b * t * q + 10 * f) 0 /\
    Z.abs (1000 * (Zpos m * 2 ^ (e + 128)) - Z.abs (b * t * q + 10 * f) * 2 ^ 128) < 2 ^ 128.
Proof.
  intros Hpf Hff Hep Hef HA HF Hd1 Hd2 Hq HX.
  set (U := 2 ^ 128) in *.
  assert (HU : 0 < U) by (unfold U; lia).
  set (X := b * t * q + 10 * f) in *.
  set (A := Zpos mp * 2 ^ (ep + 128)) in *.
  set (Fv := Zpos mf * 2 ^ (ef + 128)) in *.
  set (Q := Z.abs q) in *.
  destruct (int_exact q 128 ltac:(unfold Q in Hq; lia) ltac:(lia))
    as (mq & eq & Hqf & Hvq & Heq0 & Heq & HQ).
  fold U Q in HQ.
  rewrite add_spec, mul_spec, Hpf, Hff, Prim2SF_SF2Prim, Hqf by (rewrite Hqf; exact Hvq).
  (* the product *)
  assert (HP : Zpos (mp * mq) * 2 ^ (ep + eq + 128) = A * Q).
  { apply (Z.mul_reg_r _ _ U); [lia|].
    rewrite Pos2Z.inj_mul.
    replace (Zpos mp * Zpos mq * 2 ^ (ep + eq + 128) * U)
      with ((Zpos mp * 2 ^ (ep + 128)) * (Zpos mq * 2 ^ (eq + 128))).
    - rewrite HQ. unfold A. ring.
    - unfold U. rewrite <- (Z.mul_assoc (Zpos mp * Zpos mq)).
      rewrite <- (Z.pow_add_r 2 (ep + eq + 128) 128) by lia.
      replace (ep + eq + 128 + 128) with ((ep + 128) + (eq + 128)) by lia.
      rewrite (Z.pow_add_r 2 (ep + 128) (eq + 128)) by lia. ring. }
  assert (HAQ : 8 * U <= A * Q <= 320000000000 * U).
  { split.
    - apply Z.le_trans with (A * 1); [lia|]. apply Z.mul_le_mono_nonneg_l; lia.
    - replace (320000000000 * U) with ((32 * U) * 10000000000) by ring.
      apply Z.mul_le_mono_nonneg; lia. }
  unfold SF64mul, SFmul.
  assert (Hb1 : 2 ^ 131 <= Zpos (mp * mq) * 2 ^ (ep + eq + 128) < 2 ^ 167).
  { rewrite HP. change (2 ^ 131) with (8 * U). change (2 ^ 167) with (549755813888 * U).
    lia. }
  destruct (round_aux_scaled (xorb false (Z.ltb q 0)) (mp * mq) (ep + eq) 128 131 167
              ltac:(lia) ltac:(lia) ltac:(lia) ltac:(lia) Hb1)
    as (m2 & e2 & Hm2 & He2 & Herr2).
  rewrite Hm2. rewrite HP in Herr2. cbn [xorb] in Herr2 |- *.
  set (S := Zpos m2 * 2 ^ (e2 + 128)) in *.
  (* the sum *)
  unfold SF64add, SFadd.
  set (ez := Z.min e2 ef).
  set (N := cond_Zopp (Z.ltb q 0) (Zpos (fst (shl_align m2 e2 ez)))
            + cond_Zopp false (Zpos (fst (shl_align mf ef ez)))).
  set (Sg := if Z.ltb q 0 then - S else S).
  assert (HN : N * 2 ^ (ez + 128) = Sg + Fv).
  { unfold N, Sg, cond_Zopp. rewrite Z.mul_add_distr_r.
    unfold Fv. rewrite <- (shl_align_value mf ef ez 128) by lia.
    destruct (Z.ltb q 0).
    - rewrite Z.mul_opp_l, shl_align_value by lia. reflexivity.
    - rewrite shl_align_value by lia. reflexivity. }
  assert (HSg : 9007199254740992 * Z.abs (Sg - q * A) <= A * Q).
  { unfold Sg, Q in *. destruct (Z.ltb_spec q 0).
    - rewrite (Z.abs_neq q) in Herr2 |- * by lia.
      replace (- S - q * A) with (- (S - A * - q)) by ring. rewrite Z.abs_opp. exact Herr2.
    - rewrite (Z.abs_eq q) in Herr2 |- * by lia.
      replace (q * A) with (A * q) by ring. exact Herr2. }
  assert (HPa : Z.abs (q * A) = A * Q) by (unfold Q; rewrite Z.abs_mul; lia).
  assert (Hqd : 10 * Z.abs (q * (1000 * A - b * t * U)) <= U).
  { rewrite Z.abs_mul. fold Q.
    apply Z.le_trans with (10 * (10000000000 * Z.abs (1000 * A - b * t * U))); [|lia].
    apply Z.mul_le_mono_nonneg_l; [lia|].
    apply Z.mul_le_mono_nonneg_r; lia. }
  assert (Hid : 1000 * (Sg + Fv) - X * U
                = 1000 * (Sg - q * A) + q * (1000 * A - b * t * U)
                  + (1000 * Fv - 10 * f * U)) by (unfold X; ring).
  assert (HNa : Z.abs N * 2 ^ (ez + 128) = Z.abs (Sg + Fv)).
  { rewrite <- HN, Z.abs_mul, (Z.abs_eq (2 ^ _)) by (apply Z.pow_nonneg; lia). reflexivity. }
  assert (HW : A * Q <= 320000000000 * U) by (clear - HAQ; lia).
  assert (HF0 : 0 <= Fv <= 8 * U) by (clear - HF HU; lia).
  assert (HG : 1000000000000 * Z.abs (1000 * Fv - 10 * f * U) <= U) by exact Hd2.
  assert (Hsum0 : 9007199254740992 * Z.abs 0 <= Z.abs (Sg + Fv)) by (clear; lia).
  destruct (chain_arith U (A * Q) (q * A) Sg Fv (q * (1000 * A - b * t * U))
              (1000 * Fv - 10 * f * U) 0 X HU HW HPa HSg HF0 Hqd HG Hid Hsum0 HX)
    as (Hlo & Hhi & Hsign & _).
  assert (HNz : N <> 0).
  { intros E. rewrite E in HNa. rewrite <- HNa in Hlo. cbn in Hlo. clear - Hlo HU; lia. }
  assert (Hb2 : 2 ^ 117 <= Z.abs N * 2 ^ (ez + 128) < 2 ^ 167).
  { rewrite HNa. change (2 ^ 117) with (U / 2048). change (2 ^ 167) with (549755813888 * U).
    split; [|exact Hhi]. apply Z.div_le_upper_bound; clear - Hlo HU; lia. }
  assert (Hez : 0 <= ez + 128) by (unfold ez; clear - He2 Hef; lia).
  destruct (binary_normalize_scaled N ez 128 117 167 HNz Hez
              ltac:(clear; lia) ltac:(clear; lia) ltac:(clear; lia) Hb2)
    as (m3 & e3 & Hm3 & He3 & Herr3).
  rewrite HNa in Herr3.
  rewrite Hm3. exists (Z.ltb N 0), m3, e3. split; [reflexivity|]. split; [exact He3|].
  set (T := Zpos m3 * 2 ^ (e3 + 128)) in *.
  change (2 ^ 53) with 9007199254740992 in Herr3.
  destruct (chain_arith U (A * Q) (q * A) Sg Fv (q * (1000 * A - b * t * U))
              (1000 * Fv - 10 * f * U) (T - Z.abs (Sg + Fv)) X HU HW HPa HSg HF0 Hqd HG Hid
              Herr3 HX)
    as (_ & _ & _ & Herr).
  replace (Z.abs (Sg + Fv) + (T - Z.abs (Sg + Fv))) with T in Herr by ring.
  split; [|exact Herr].
  assert (HNs : N < 0 <-> Sg + Fv < 0).
  { rewrite <- HN. assert (Hpz : 0 < 2 ^ (ez + 128)) by (apply Z.pow_pos_nonneg; lia).
    split; intros Hn0.
    - apply Z.mul_neg_pos; assumption.
    - destruct (Z.lt_ge_cases N 0) as [|HN0]; [assumption|].
      assert (0 <= N * 2 ^ (ez + 128)) by (apply Z.mul_nonneg_nonneg; clear - HN0 Hpz; lia). clear - Hn0 H; lia. }
  destruct (Z.ltb_spec N 0) as [Hn|Hn], (Z.ltb_spec X 0) as [Hx|Hx]; try reflexivity;
    exfalso.
  - apply HNs, Hsign in Hn. clear - Hn Hx; lia.
  - apply Hsign, HNs in Hx. clear - Hn Hx; lia.
Qed.

(** An even number of thousandths is at most 4 from ten times its
    rounding to hundredths. *)
Lemma div_round_even_near (Y : Z) :
  0 <= Y -> Z.even Y = true -> Z.abs (10 * div_round_even Y 10 - Y) <= 4.
Proof.
  intros HY He. apply Z.even_spec in He as [k Hk].
  unfold div_round_even.
  pose proof (Z.div_mod Y 10 ltac:(lia)) as Hd.
  pose proof (Z.mod_pos_bound Y 10 ltac:(lia)) as Hm.
  set (q := Y / 10) in *. set (r := Y mod 10) in *.
  destruct (Z.ltb_spec (2 * r) 10); [lia|].
  destruct (Z.ltb_spec 10 (2 * r)); [lia|].
  exfalso. lia.
Qed.

(** Rounding [num / 2^k] to nearest finds any [c] closer than half a unit. *)
Lemma shift_round_even_near (num k c : Z) :
  0 <= num -> 0 <= k -> 2 * Z.abs (num - c * 2 ^ k) < 2 ^ k ->
  shift_round_even num k = c.
Proof.
  intros Hn Hk Hc. unfold shift_round_even.
  rewrite Z.shiftr_div_pow2, Z.shiftl_mul_pow2, Z.shiftl_mul_pow2, Z.shiftl_1_l by lia.
  rewrite Z.pow_1_r.
  set (H := 2 ^ k) in *.
  assert (HH : 0 < H) by (apply Z.pow_pos_nonneg; lia).
  pose proof (Z.div_mod num H ltac:(lia)) as Hd.
  pose proof (Z.mod_pos_bound num H HH) as Hm.
  set (q := num / H) in *. set (r := num mod H) in *.
  replace (num - q * H) with r by lia.
  assert (Hcq : c = q \/ c = q + 1).
  { destruct (Z.lt_ge_cases c q) as [Hl|Hl].
    - exfalso. assert (c * H <= (q - 1) * H) by (apply Z.mul_le_mono_nonneg_r; lia). lia.
    - destruct (Z.le_gt_cases c (q + 1)) as [Hu|Hu]; [lia|].
      exfalso. assert ((q + 2) * H <= c * H) by (apply Z.mul_le_mono_nonneg_r; lia). lia. }
  destruct Hcq as [->| ->].
  - destruct (Z.ltb_spec (r * 2) H); [reflexivity|]. exfalso. lia.
  - destruct (Z.ltb_spec (r * 2) H); [exfalso; lia|].
    destruct (Z.ltb_spec H (r * 2)); [reflexivity|]. exfalso. lia.
Qed.

(** A float [m * 2^e] whose value, in units of [2^-K], lies within one
    thousandth of an even number [X] of thousandths prints, to the cent,
    as [X] rounded to the cent. *)
Lemma cents_from_err (m : positive) (e K X : Z) :
  0 <= e + K -> Z.even X = true ->
  Z.abs (1000 * (Zpos m * 2 ^ (e + K)) - Z.abs X * 2 ^ K) < 2 ^ K ->
  cents_of m e = div_round_even (Z.abs X) 10.
Proof.
  intros HK He Herr.
  assert (HeX : Z.even (Z.abs X) = true).
  { destruct (Z.abs_eq_or_opp X) as [E|E]; rewrite E; [exact He|].
    rewrite Z.even_opp. exact He. }
  pose proof (div_round_even_near (Z.abs X) (Z.abs_nonneg X) HeX) as Hc.
  set (c := div_round_even (Z.abs X) 10) in *.
  set (V := Zpos m * 2 ^ (e + K)) in *.
  set (U := 2 ^ K) in *.
  assert (HU : 0 < U) by (pose proof (Z.abs_nonneg (1000 * V - Z.abs X * U)); lia).
  assert (HK0 : 0 <= K).
  { destruct (Z.lt_ge_cases K 0) as [Hn|]; [|assumption].
    unfold U in HU. rewrite Z.pow_neg_r in HU by exact Hn. lia. }
  assert (H2 : 2 * Z.abs (100 * V - c * U) < U).
  { assert (Hcu : Z.abs (10 * c - Z.abs X) * U <= 4 * U)
      by (apply Z.mul_le_mono_nonneg_r; lia).
    assert (Hab : Z.abs ((10 * c - Z.abs X) * U) <= 4 * U)
      by (rewrite Z.abs_mul, (Z.abs_eq U); lia).
    assert (Hid : 10 * (100 * V - c * U) = (1000 * V - Z.abs X * U) - (10 * c - Z.abs X) * U)
      by ring.
    set (E1 := 1000 * V - Z.abs X * U) in *. set (E2 := (10 * c - Z.abs X) * U) in *.
    set (E := 100 * V - c * U) in *. clearbody E1 E2 E. lia. }
  unfold cents_of. destruct (Z.leb_spec 0 e) as [He0|He0].
  - rewrite Z.shiftl_mul_pow2 by lia.
    unfold V, U in H2. rewrite Z.pow_add_r in H2 by lia.
    set (P := 2 ^ e) in *.
    replace (100 * (Zpos m * (P * 2 ^ K)) - c * 2 ^ K) with ((Zpos m * 100 * P - c) * 2 ^ K)
      in H2 by ring.
    rewrite Z.abs_mul, (Z.abs_eq (2 ^ K)) in H2 by lia.
    destruct (Z.eq_dec (Zpos m * 100 * P - c) 0) as [E|E]; [lia|].
    exfalso. assert (1 * U <= Z.abs (Zpos m * 100 * P - c) * U)
      by (apply Z.mul_le_mono_nonneg_r; lia). unfold U in *. lia.
  - apply shift_round_even_near; [lia|lia|].
    set (H := 2 ^ (- e)) in *. set (G := 2 ^ (e + K)) in *.
    assert (HUG : U = H * G) by (unfold U, H, G; rewrite <- Z.pow_add_r by lia; f_equal; lia).
    assert (HG : 0 < G) by (apply Z.pow_pos_nonneg; lia).
    rewrite HUG in H2. unfold V in H2.
    replace (100 * (Zpos m * G) - c * (H * G)) with ((Zpos m * 100 - c * H) * G) in H2 by ring.
    rewrite Z.abs_mul, (Z.abs_eq G) in H2 by lia.
    replace (2 * (Z.abs (Zpos m * 100 - c * H) * G)) with ((2 * Z.abs (Zpos m * 100 - c * H)) * G)
      in H2 by ring.
    apply (Z.mul_lt_mono_pos_r G); assumption.
Qed.

End FloatRound.

(* ------------------------------------------------------------------ *)

Module PizzaFacts.
Import PyFloat Pizza FloatRound.
Local Open Scope Z_scope.

Lemma assoc_In {A} (k : string) (v : A) (d : list (string * A)) :
  assoc k d = Some v -> In (k, v) d.
Proof.
  induction d as [|[k' v'] d IH]; simpl; [discriminate|].
  destruct (String.eqb k k') eqn:E.
  - intros [= <-]. apply String.eqb_eq in E. subst. left. reflexivity.
  - intros H. right. auto.
Qed.

(** Every size string, known or not, gets one of the four multipliers. *)
Lemma size_cases (size : string) :
  In (size_multiplier size, spec_multiplier_tenths size) MULTIPLIER_TENTHS.
Proof.
  unfold size_multiplier, spec_multiplier_tenths, SIZE_MULTIPLIERS, MULTIPLIER_TENTHS.
  cbn [assoc].
  repeat match goal with
         | |- context [String.eqb size ?x] => destruct (String.eqb size x)
         end; simpl; auto 6.
Qed.

Lemma format_2f_cents (x : float) (s : bool) (c : Z) :
  float_cents x = Some (s, c) ->
  format_2f x = (if s then "-" else "") ++ show_cents c.
Proof.
  unfold float_cents, format_2f.
  destruct (Prim2SF x); intros H; inversion H; subst; destruct s; reflexivity.
Qed.

Lemma pricing_errors_sound pt b r f m t :
  pricing_errors_ok = true ->
  In (pt, b) PIZZA_CENTS -> In (r, f) FEE_CENTS -> In (m, t) MULTIPLIER_TENTHS ->
  exists p rr, assoc pt PIZZA_MENU = Some p /\ assoc r RESTAURANTS = Some rr /\
    price_scaled_ok (p_price p * m)%float (b * t) = true /\
    fee_scaled_ok (r_delivery_fee rr) f = true /\
    Z.even t = true /\ 10 * f < b * t /\ total_ok p rr b f m t 0 = true.
Proof.
  unfold pricing_errors_ok. intros H H1 H2 H3.
  rewrite forallb_forall in H. specialize (H _ H1). cbv beta iota in H.
  destruct (assoc pt PIZZA_MENU) as [p|]; [|discriminate].
  rewrite forallb_forall in H. specialize (H _ H2). cbv beta iota in H.
  destruct (assoc r RESTAURANTS) as [rr|]; [|discriminate].
  rewrite forallb_forall in H. specialize (H _ H3). cbv beta iota in H.
  repeat rewrite andb_true_iff in H. destruct H as [[[[Hp Hf] Ht] Hlt] H0].
  apply Z.ltb_lt in Hlt.
  exists p, rr. repeat split; assumption.
Qed.

(** Within the error budgets, and for a nonzero quantity of at most
    [10^10] in absolute value, the total of [pricing] prints as the exact
    total rounded to the cent. *)
Lemma total_cents (p : pizza) (rr : restaurant) (b f : Z) (m : float) (t q : Z) :
  price_scaled_ok (p_price p * m)%float (b * t) = true ->
  fee_scaled_ok (r_delivery_fee rr) f = true ->
  Z.even t = true -> 0 <= 10 * f < b * t ->
  0 < Z.abs q <= 10000000000 ->
  exists pp sub tot,
    pricing (p_price p) m q (r_delivery_fee rr) = Ok (pp, sub, tot) /\
    float_cents tot = Some (Z.ltb (b * t * q + 10 * f) 0,
                            div_round_even (Z.abs (b * t * q + 10 * f)) 10).
Proof.
  intros Hp Hf Ht Hbt Hq.
  unfold price_scaled_ok in Hp.
  destruct (Prim2SF (p_price p * m)%float) as [[]|[]| |[] mp ep] eqn:Epf; try discriminate.
  unfold fee_scaled_ok in Hf.
  destruct (Prim2SF (r_delivery_fee rr)) as [[]|[]| |[] mf ef] eqn:Eff; try discriminate.
  repeat rewrite andb_true_iff in Hp, Hf. rewrite !Z.leb_le in Hp, Hf.
  destruct Hp as [[[Hep HA1] HA2] Hd1]. destruct Hf as [[[Hef HF1] HF2] Hd2].
  assert (HX : b * t * q + 10 * f <> 0).
  { destruct (Z.lt_ge_cases q 0) as [Hn|Hn].
    - assert (b * t * q <= b * t * -1) by (apply Z.mul_le_mono_nonneg_l; lia). lia.
    - assert (b * t * 1 <= b * t * q) by (apply Z.mul_le_mono_nonneg_l; lia). lia. }
  assert (Hev : Z.even (b * t * q + 10 * f) = true).
  { apply Z.even_spec in Ht as [k Hk]. apply Z.even_spec.
    exists (b * k * q + 5 * f). subst t. ring. }
  destruct (total_chain (p_price p * m)%float (r_delivery_fee rr) mp mf ep ef b t f q
              Epf Eff Hep Hef (conj HA1 HA2) (conj HF1 HF2) Hd1 Hd2 Hq HX)
    as (s & m' & e & Htot & He & Hs & Herr).
  destruct (int_exact q 128 ltac:(lia) ltac:(lia)) as (mq & eq & Hqf & _).
  rewrite Hqf in Htot.
  unfold pricing, float_of_int. rewrite Hqf.
  eexists _, _, _. split; [reflexivity|].
  unfold float_cents. rewrite Htot, Hs.
  rewrite (cents_from_err m' e 128 _ He Hev Herr). reflexivity.
Qed.

(** [C5] (amended) Unknown sizes get the multiplier 1.0.  For a pizza and a
    restaurant of the tables, any size and every quantity of absolute
    value at most [10^10] (negative quantities included), [order_pizza]
    records an order whose total, printed with two decimals, is the exact
    [base_price * size_multiplier * quantity + delivery_fee] rounded to
    the cent. *)
Theorem order_total_to_the_cent :
  (forall size, assoc size SIZE_MULTIPLIERS = None -> size_multiplier size = 1.0%float) /\
  (forall orders_db now pizza_type size quantity restaurant
          customer_name customer_phone delivery_address special_instructions b f,
     spec_base_cents pizza_type = Some b ->
     spec_fee_cents restaurant = Some f ->
     Z.abs quantity <= 10 ^ 10 ->
     exists msg o,
       order_pizza orders_db now pizza_type size quantity restaurant customer_name
         customer_phone delivery_address special_instructions
         = (msg, (orders_db ++ [o])%list) /\
       format_2f (total o) = spec_format (spec_total_mills b size quantity f)).
Proof.
  split.
  - intros size H. unfold size_multiplier. rewrite H. reflexivity.
  - intros db now pt size q r cn ph ad sp b f Hb Hf Hq.
    assert (Hall : pricing_errors_ok = true) by (vm_compute; reflexivity).
    destruct (pricing_errors_sound pt b r f _ _ Hall (assoc_In _ _ _ Hb)
                (assoc_In _ _ _ Hf) (size_cases size))
      as (p & rr & Ep & Er & Hp & Hfe & Ht & Hlt & H0).
    assert (Hf0 : 0 <= f).
    { apply assoc_In in Hf. unfold FEE_CENTS in Hf. simpl in Hf.
      destruct Hf as [E|[E|[E|[]]]]; injection E; intros; subst; lia. }
    unfold order_pizza. rewrite Ep, Er.
    unfold spec_format, spec_total_mills.
    destruct (Z.eq_dec q 0) as [->|Hq0].
    + unfold total_ok in H0.
      destruct (pricing (p_price p) (size_multiplier size) 0 (r_delivery_fee rr))
        as [[[pp sub] tot]|e]; [|discriminate].
      destruct (float_cents tot) as [[s c]|] eqn:Ec; [|discriminate].
      apply andb_true_iff in H0 as [Hs Hc].
      apply Bool.eqb_prop in Hs. apply Z.eqb_eq in Hc.
      eexists _, _. split; [reflexivity|].
      cbn [total]. rewrite (format_2f_cents _ _ _ Ec). subst. reflexivity.
    + destruct (total_cents p rr b f (size_multiplier size) (spec_multiplier_tenths size) q
                  Hp Hfe Ht ltac:(lia) ltac:(lia))
        as (pp & sub & tot & Epr & Ec).
      rewrite Epr.
      eexists _, _. split; [reflexivity|].
      cbn [total]. rewrite (format_2f_cents _ _ _ Ec).
      replace (f * 10) with (10 * f) by ring. reflexivity.
Qed.

(** [C9] An unknown pizza type is reported first, naming it and listing the
    menu's keys; a known pizza with an unknown restaurant is reported
    naming the restaurant and listing the restaurants' keys.  In both cases
    the order store is returned unchanged. *)
Theorem unknown_pizza_or_restaurant_rejected (orders_db : list order) (now : string)
    (pizza_type size : string) (quantity : Z) (restaurant : string)
    (customer_name customer_phone delivery_address special_instructions : string) :
  (assoc pizza_type PIZZA_MENU = None ->
   order_pizza orders_db now pizza_type size quantity restaurant customer_name
     customer_phone delivery_address special_instructions
   = ("Error: Pizza type '" ++ pizza_type ++ "' not found. Available types: "
        ++ "margherita, pepperoni, veggie, meat_lovers, hawaiian, supreme", orders_db)) /\
  (forall p, assoc pizza_type PIZZA_MENU = Some p ->
   assoc restaurant RESTAURANTS = None ->
   order_pizza orders_db now pizza_type size quantity restaurant customer_name
     customer_phone delivery_address special_instructions
   = ("Error: Restaurant '" ++ restaurant ++ "' not found. Available restaurants: "
        ++ "pizza_hut, dominos, papa_johns", orders_db)).
Proof.
  split.
  - intros H. unfold order_pizza. rewrite H. reflexivity.
  - intros p Hp Hr. unfold order_pizza. rewrite Hp, Hr. reflexivity.
Qed.

End PizzaFacts.

Module PizzaCases.
Import PyFloat Pizza PizzaFacts.
Local Open Scope Z_scope.

(** [C5] fails for large quantities: for a veggie extra-large pizza from
    Pizza Hut, quantity 10^12, the recorded total prints as
    23786000000003.98 while the exact total is 23786000000003.99. *)
Lemma total_off_by_a_cent :
  map (fun o => format_2f (total o))
    (snd (order_pizza [] "2025-01-15T12:00:00" "veggie" "extra_large" (10 ^ 12)
            "pizza_hut" "Ann" "" "" ""))
    = ["23786000000003.98"] /\
  spec_base_cents "veggie" = Some 1699 /\ spec_fee_cents "pizza_hut" = Some 399 /\
  spec_format (spec_total_mills 1699 "extra_large" (10 ^ 12) 399) = "23786000000003.99".
Proof. vm_compute. repeat split. Qed.

Lemma order_total_to_the_cent_witness :
  (exists msg o,
     order_pizza [] "2025-01-15T12:00:00" "supreme" "extra_large" (10 ^ 10) "papa_johns"
       "Ann" "" "" "" = (msg, [o]) /\
     format_2f (total o) = spec_format (spec_total_mills 1999 "extra_large" (10 ^ 10) 499)) /\
  (exists msg o,
     order_pizza [] "2025-01-15T12:00:00" "margherita" "large" (-3) "dominos"
       "Ann" "" "" "" = (msg, [o]) /\
     format_2f (total o) = spec_format (spec_total_mills 1299 "large" (-3) 299)).
Proof.
  split.
  - apply (proj2 order_total_to_the_cent); [reflexivity | reflexivity | lia].
  - apply (proj2 order_total_to_the_cent); [reflexivity | reflexivity | lia].
Defined.

Lemma unknown_pizza_or_restaurant_rejected_witness :
  order_pizza [] "now" "calzone" "large" 1 "dominos" "Ann" "" "" ""
    = ("Error: Pizza type 'calzone' not found. Available types: "
         ++ "margherita, pepperoni, veggie, meat_lovers, hawaiian, supreme", []) /\
  order_pizza [] "now" "veggie" "large" 1 "little_caesars" "Ann" "" "" ""
    = ("Error: Restaurant 'little_caesars' not found. Available restaurants: "
         ++ "pizza_hut, dominos, papa_johns", []).
Proof.
  split.
  - apply (proj1 (unknown_pizza_or_restaurant_rejected [] "now" "calzone" "large" 1
                    "dominos" "Ann" "" "" "")).
    reflexivity.
  - apply (proj2 (unknown_pizza_or_restaurant_rejected [] "now" "veggie" "large" 1
                    "little_caesars" "Ann" "" "" "")
             (mk_pizza "Veggie Supreme" 16.99
                "Tomato sauce, mozzarella, bell peppers, onions, mushrooms, olives"));
      reflexivity.
Defined.

End PizzaCases.

(* ------------------------------------------------------------------ *)
(** ** Meeting scheduling *)

Module CalendarCases.
Import Calendar.
Local Open Scope Z_scope.

(** [C6] fails: [schedule_meeting] books its wall-clock times in
    America/Chicago, but [check_availability] sends the same wall-clock
    times as UTC.  A one-hour meeting booked on 2025-01-15 (day 20103) at
    10:00, or on 2025-07-15 (day 20284) at 10:00, overlaps the requested
    10:00-11:00 slot of the same day, yet the slot is reported free; the
    meeting is reported as a conflict for 16:00-17:00 (15:00-16:00 in
    summer) instead. *)
Theorem booked_meeting_reported_free :
  (exists cal,
     schedule_meeting [] (-360) "Sync" 20103 10 0 60 = Some cal /\
     check_availability cal 20103 10 0 (Some (11, 0)) 60 = Available /\
     check_availability cal 20103 16 0 (Some (17, 0)) 60 = Conflicts cal) /\
  (exists cal,
     schedule_meeting [] (-300) "Sync" 20284 10 0 60 = Some cal /\
     check_availability cal 20284 10 0 (Some (11, 0)) 60 = Available /\
     check_availability cal 20284 15 0 (Some (16, 0)) 60 = Conflicts cal).
Proof.
  split; eexists; split; [reflexivity | split; reflexivity | reflexivity | split; reflexivity].
Qed.

End CalendarCases.

(* ------------------------------------------------------------------ *)
(** ** PDF reading and question answering *)

Module PdfFacts.
Import PyFloat Pdf.
Local Open Scope Z_scope.

Section Sort.
Context {A : Type} (key : A -> nat).

Let ge_key (x y : A) : Prop := (key y <= key x)%nat.

Lemma insert_desc_in (x z : A) (l : list A) :
  In z (insert_desc key x l) -> z = x \/ In z l.
Proof.
  induction l as [|y l IH]; simpl.
  - intros [H|[]]. auto.
  - destruct (Nat.ltb (key y) (key x)).
    + intros [H|H]; auto.
    + intros [H|H]; [auto|]. destruct (IH H); auto.
Qed.

Lemma insert_desc_sorted (x : A) (l : list A) :
  StronglySorted ge_key l -> StronglySorted ge_key (insert_desc key x l).
Proof.
  induction l as [|y l IH]; simpl; intros Hs.
  - constructor; constructor.
  - inversion Hs as [|? ? Hl Hf]; subst.
    destruct (Nat.ltb (key y) (key x)) eqn:E.
    + apply Nat.ltb_lt in E. constructor; [assumption|].
      constructor; [unfold ge_key; lia|].
      eapply Forall_impl; [|exact Hf]. unfold ge_key. intros z Hz. lia.
    + apply Nat.ltb_ge in E. constructor; [auto|].
      apply Forall_forall. intros z Hz.
      destruct (insert_desc_in x z l Hz) as [->|Hz'].
      * unfold ge_key. lia.
      * exact (proj1 (Forall_forall _ _) Hf z Hz').
Qed.

Lemma filter_key_below (k : nat) (y : A) (l : list A) :
  Forall (ge_key y) l -> (key y < k)%nat ->
  filter (fun z => Nat.eqb (key z) k) (y :: l) = [].
Proof.
  intros Hf Hk. simpl.
  replace (Nat.eqb (key y) k) with false by (symmetry; apply Nat.eqb_neq; lia).
  induction Hf as [|z l Hz Hf IH]; simpl; [reflexivity|].
  unfold ge_key in Hz.
  replace (Nat.eqb (key z) k) with false by (symmetry; apply Nat.eqb_neq; lia).
  exact IH.
Qed.

Lemma insert_desc_filter (k : nat) (x : A) (l : list A) :
  StronglySorted ge_key l ->
  filter (fun z => Nat.eqb (key z) k) (insert_desc key x l)
  = (filter (fun z => Nat.eqb (key z) k) l
     ++ (if Nat.eqb (key x) k then [x] else []))%list.
Proof.
  induction l as [|y l IH]; simpl; intros Hs.
  - destruct (Nat.eqb (key x) k); reflexivity.
  - inversion Hs as [|? ? Hl Hf]; subst.
    destruct (Nat.ltb (key y) (key x)) eqn:E.
    + apply Nat.ltb_lt in E.
      destruct (Nat.eqb (key x) k) eqn:Ex.
      * apply Nat.eqb_eq in Ex. subst k.
        pose proof (filter_key_below (key x) y l Hf E) as H0. simpl in H0.
        change (filter (fun z => Nat.eqb (key z) (key x)) (x :: y :: l)
                = (filter (fun z => Nat.eqb (key z) (key x)) (y :: l) ++ [x])%list).
        rewrite (filter_key_below (key x) y l Hf E).
        simpl. rewrite Nat.eqb_refl. simpl in H0. rewrite H0. reflexivity.
      * change (filter (fun z => Nat.eqb (key z) k) (x :: y :: l)
                = (filter (fun z => Nat.eqb (key z) k) (y :: l) ++ [])%list).
        rewrite app_nil_r. simpl. rewrite Ex. reflexivity.
    + simpl. rewrite (IH Hl).
      destruct (Nat.eqb (key y) k); reflexivity.
Qed.

Lemma fold_insert_sorted (l acc : list A) :
  StronglySorted ge_key acc ->
  StronglySorted ge_key (fold_left (fun acc x => insert_desc key x acc) l acc).
Proof.
  revert acc. induction l as [|x l IH]; simpl; intros acc H; auto.
  apply IH. apply insert_desc_sorted. exact H.
Qed.

Lemma fold_insert_filter (k : nat) (l acc : list A) :
  StronglySorted ge_key acc ->
  filter (fun z => Nat.eqb (key z) k) (fold_left (fun acc x => insert_desc key x acc) l acc)
  = (filter (fun z => Nat.eqb (key z) k) acc ++ filter (fun z => Nat.eqb (key z) k) l)%list.
Proof.
  revert acc. induction l as [|x l IH]; simpl; intros acc H.
  - rewrite app_nil_r. reflexivity.
  - rewrite (IH _ (insert_desc_sorted x acc H)), (insert_desc_filter k x acc H).
    rewrite <- app_assoc. destruct (Nat.eqb (key x) k); reflexivity.
Qed.

(** The sort is descending and stable: for each key, the elements of that
    key come in their original order. *)
Lemma sort_desc_sorted (l : list A) :
  StronglySorted (fun x y => (key y <= key x)%nat) (sort_desc key l).
Proof. apply fold_insert_sorted. constructor. Qed.

Lemma sort_desc_stable (k : nat) (l : list A) :
  filter (fun z => Nat.eqb (key z) k) (sort_desc key l)
  = filter (fun z => Nat.eqb (key z) k) l.
Proof. unfold sort_desc. rewrite fold_insert_filter; [reflexivity | constructor]. Qed.

Lemma sort_desc_nil (l : list A) : sort_desc key l = [] -> l = [].
Proof.
  destruct l as [|x l]; [reflexivity|]. intros H.
  pose proof (sort_desc_stable (key x) (x :: l)) as Hs.
  rewrite H in Hs. simpl in Hs. rewrite Nat.eqb_refl in Hs. discriminate.
Qed.

End Sort.

(** [C7] (amended) Once a store is loaded, the gathered text is made of
    the pages' texts each preceded by its "[Page n]" (or "[path - Page n]")
    marker.  When that text is blank the answer is the "No text content"
    error.  Otherwise the fragments are the pieces of that text cut at
    every '.'; those with a positive keyword count, stripped and paired
    with their count, are ranked by a descending sort in which fragments
    of equal count keep their original order; the answer shows the first
    five, and is the "Could not find" message when no fragment matches. *)
Theorem question_answer_ranking (document_store : list (string * doc_data))
    (question : string) (file_path : option string)
    (all_text : string) (sources : list string) :
  (0 < length document_store)%nat ->
  gather document_store file_path = (all_text, sources) ->
  (String.eqb (strip all_text) "" = true ->
   ask_question_about_pdf document_store question file_path = no_text) /\
  (String.eqb (strip all_text) "" = false ->
   let fragments := relevant (question_words question) (split_on "." all_text) in
   let ranked := sort_desc snd fragments in
   ask_question_about_pdf document_store question file_path
     = match fragments with
       | [] => not_found question
       | _ => found_answer sources question (firstn 5 ranked)
       end /\
   StronglySorted (fun x y => (snd y <= snd x)%nat) ranked /\
   (forall k, filter (fun x => Nat.eqb (snd x) k) ranked
              = filter (fun x => Nat.eqb (snd x) k) fragments)).
Proof.
  intros Hlen Hg.
  split.
  { intros Hs. unfold ask_question_about_pdf.
    destruct document_store as [|d ds]; [simpl in Hlen; lia|].
    rewrite Hg, Hs. reflexivity. }
  intros Hs fragments ranked.
  split; [|split; [apply sort_desc_sorted | intros k; apply sort_desc_stable]].
  unfold ask_question_about_pdf.
  destruct document_store as [|d ds]; [simpl in Hlen; lia|].
  rewrite Hg, Hs. fold fragments. fold ranked.
  destruct ranked as [|r rs] eqn:Er.
  - rewrite (sort_desc_nil snd fragments Er). reflexivity.
  - destruct fragments as [|f fs]; [discriminate|]. reflexivity.
Qed.

Lemma in_range (a b i : Z) : In i (range a b) -> a <= i < b.
Proof.
  unfold range. intros H. apply in_map_iff in H as (k & <- & Hk).
  apply in_seq in Hk. lia.
Qed.

Lemma read_pages_ok (doc : list string) (l : list Z) :
  (forall i, In i l -> 0 <= i < Z.of_nat (length doc)) ->
  exists ps, read_pages doc l = Ok ps /\ map page_number ps = map (fun i => i + 1) l.
Proof.
  induction l as [|i l IH]; simpl; intros H.
  - exists []. auto.
  - destruct IH as (ps & Hps & Hn); [intros j Hj; apply H; auto|].
    assert (Hi : 0 <= i < Z.of_nat (length doc)) by auto.
    unfold doc_getitem.
    destruct (nth_error doc (Z.to_nat i)) as [t|] eqn:Et.
    + replace (Z.leb 0 i) with true by (symmetry; apply Z.leb_le; lia).
      rewrite Hps. eexists. split; [reflexivity|]. simpl. rewrite Hn. reflexivity.
    + apply nth_error_None in Et. lia.
Qed.

(** [C10] For a PDF with at least one page and any [page_start] and
    [page_end], the clamped range satisfies [0 <= start <= total_pages - 1]
    and [start + 1 <= end <= total_pages]; reading succeeds and stores the
    pages numbered [start + 1 .. end], at least one of them. *)
Theorem read_pdf_text_clamps_range (files : list (string * list string))
    (document_store : list (string * doc_data)) (file_path : string)
    (doc : list string) (page_start page_end : option Z) (start end_ : Z) :
  dict_get file_path files = Some doc ->
  (1 <= length doc)%nat ->
  page_range (Z.of_nat (length doc)) page_start page_end = (start, end_) ->
  (0 <= start <= Z.of_nat (length doc) - 1 /\ start + 1 <= end_ <= Z.of_nat (length doc)) /\
  exists pages_text,
    snd (read_pdf_text files document_store file_path page_start page_end)
      = dict_set file_path (mk_doc pages_text (Z.of_nat (length doc))) document_store /\
    pages_text <> [] /\
    map page_number pages_text = map (fun i => i + 1) (range start end_).
Proof.
  intros Hf Hlen Hr.
  assert (Hb : 0 <= start <= Z.of_nat (length doc) - 1 /\
               start + 1 <= end_ <= Z.of_nat (length doc)).
  { unfold page_range in Hr. injection Hr as <- <-. lia. }
  split; [exact Hb|].
  destruct (read_pages_ok doc (range start end_)) as (ps & Hps & Hn).
  { intros i Hi. apply in_range in Hi. lia. }
  exists ps. unfold read_pdf_text. rewrite Hf, Hr, Hps. simpl.
  split; [reflexivity|]. split; [|exact Hn].
  intros ->. simpl in Hn. unfold range in Hn.
  destruct (Z.to_nat (end_ - start)) eqn:E; [lia | discriminate].
Qed.

End PdfFacts.

Module PdfCases.
Import PyFloat Pdf PdfFacts.
Local Open Scope Z_scope.

(** [C7] fails as stated: the fragments come from the text with the page
    markers, so the keyword "page" of "which page" matches the marker of a
    page whose own text "Hello world" holds no keyword, and an excerpt is
    returned instead of the "Could not find" message. *)
Lemma page_marker_matches_keyword :
  filter (fun s => Nat.ltb 0 (matches (question_words "which page") s))
    (split_on "." "Hello world") = [] /\
  ask_question_about_pdf [("a", mk_doc [mk_page 1 "Hello world" 2 None] 1)]
    "which page" (Some "a")
    = found_answer ["a"] "which page" [("[Page 1]" ++ nl ++ "Hello world", 1%nat)].
Proof. vm_compute. split; reflexivity. Qed.

Lemma question_answer_ranking_witness :
  let st := [("a", mk_doc [mk_page 1 "Paris is sunny. Lyon is rainy. Paris is big." 8 None] 1)] in
  let blank := [("b", mk_doc [] 0)] in
  ask_question_about_pdf st "weather in paris" (Some "a")
    = found_answer ["a"] "weather in paris"
        (firstn 5 (sort_desc snd (relevant (question_words "weather in paris")
           (split_on "." (fst (gather st (Some "a"))))))) /\
  ask_question_about_pdf blank "weather in paris" (Some "b") = no_text.
Proof.
  intros st blank. split.
  - destruct (question_answer_ranking st "weather in paris" (Some "a")
                (fst (gather st (Some "a"))) (snd (gather st (Some "a"))))
      as [_ H]; [simpl; lia | reflexivity |].
    destruct H as [H _]; [vm_compute; reflexivity|].
    rewrite H. vm_compute. reflexivity.
  - destruct (question_answer_ranking blank "weather in paris" (Some "b")
                (fst (gather blank (Some "b"))) (snd (gather blank (Some "b"))))
      as [H _]; [simpl; lia | reflexivity |].
    apply H. vm_compute. reflexivity.
Defined.

(** Keywords are lowercased with Python's Unicode [str.lower]: the
    keyword of "ÉCOLE" is "école", found in the page text. *)
Lemma non_ascii_keyword_found :
  ask_question_about_pdf [("a", mk_doc [mk_page 1 "L'école est fermée. Rien." 8 None] 1)]
    "ÉCOLE location" (Some "a")
    = found_answer ["a"] "ÉCOLE location" [("[Page 1]" ++ nl ++ "L'école est fermée", 1%nat)].
Proof. vm_compute. reflexivity. Qed.

Lemma read_pdf_text_clamps_range_witness :
  (0 <= 2 <= 3 - 1 /\ 2 + 1 <= 3 <= 3) /\
  exists pages_text,
    snd (read_pdf_text [("f.pdf", ["One."; "Two."; "Three."])] [] "f.pdf" (Some 3) (Some 1))
      = dict_set "f.pdf" (mk_doc pages_text 3) [] /\
    pages_text <> [] /\ map page_number pages_text = map (fun i => i + 1) (range 2 3).
Proof.
  apply (read_pdf_text_clamps_range [("f.pdf", ["One."; "Two."; "Three."])] [] "f.pdf"
           ["One."; "Two."; "Three."] (Some 3) (Some 1) 2 3);
    [reflexivity | simpl; lia | reflexivity].
Defined.

End PdfCases.
